(** * Evaluation harness of omnifocus-mcp: [scripts/run_evaluation.py]

    A shallow embedding of the evaluation script and the properties of its
    control loop.  The script is one coroutine, [run_evaluation], and one
    helper, [save_evaluation_file]; the definitions below follow the script
    region by region and quote the line numbers they embed.

    Conventions.
    - A Python [str] is a [string]; a character is the code point it
      denotes, restricted to the code points below 256 (the type [ascii]).
      On that range [str.lower], [str.isspace] and [str.strip] are the
      finite tables written out below.
    - The collaborators the script talks to (model service, tool session,
      console prompt, file system) are an environment [Env] of functions
      from the history of requests made so far and the current request to
      an outcome: a returned value or a raised exception.
    - Every request the script issues is recorded as an [event]; the
      functions return the events they emit, in program order.
    - Of the console output only the handler's error line, the status
      line of the write-back and the summary are recorded; the accuracy
      percentage (a float) is left out.
    - Exceptions are those caught by [except Exception]; an interrupt of
      the process is outside the model. *)

From Stdlib Require Import String Ascii Bool Arith Lia List.
From stdpp Require Import base list strings.
Import ListNotations.
Local Open Scope string_scope.
Local Open Scope nat_scope.
Local Open Scope list_scope.
#[local] Arguments String.append : simpl nomatch.
#[local] Set Warnings "-register-all".

(** ** Python strings *)

Module PyStr.

Definition code (c : ascii) : nat := nat_of_ascii c.

(** [str.isupper] on one character below 256: A-Z and the Latin-1
    capitals U+00C0..U+00DE without the multiplication sign U+00D7. *)
Definition is_upper (c : ascii) : bool :=
  let n := code c in
  ((65 <=? n) && (n <=? 90))
  || ((192 <=? n) && (n <=? 222) && negb (n =? 215)).

Definition lower_char (c : ascii) : ascii :=
  if is_upper c then ascii_of_nat (code c + 32) else c.

(** [s.lower()] *)
Fixpoint lower (s : string) : string :=
  match s with
  | EmptyString => EmptyString
  | String c t => String (lower_char c) (lower t)
  end.

(** [str.isspace] on one character below 256: TAB, LF, VT, FF, CR,
    FS, GS, RS, US, SPACE, NEL (U+0085) and NBSP (U+00A0). *)
Definition is_space (c : ascii) : bool :=
  let n := code c in
  ((9 <=? n) && (n <=? 13)) || ((28 <=? n) && (n <=? 32))
  || (n =? 133) || (n =? 160).

(** Unicode general category Cc: U+0000..U+001F and U+007F..U+009F. *)
Definition is_control (c : ascii) : bool :=
  let n := code c in
  (n <? 32) || ((127 <=? n) && (n <=? 159)).

Fixpoint all_chars (p : ascii -> bool) (s : string) : bool :=
  match s with
  | EmptyString => true
  | String c t => p c && all_chars p t
  end.

Definition no_control (s : string) : bool :=
  all_chars (fun c => negb (is_control c)) s.

Fixpoint rev (s : string) : string :=
  match s with
  | EmptyString => EmptyString
  | String c t => rev t +:+ String c EmptyString
  end.

(** [s.lstrip()], [s.rstrip()], [s.strip()] with no argument. *)
Fixpoint lstrip (s : string) : string :=
  match s with
  | EmptyString => EmptyString
  | String c t => if is_space c then lstrip t else s
  end.

Definition rstrip (s : string) : string := rev (lstrip (rev s)).

Definition strip (s : string) : string := rstrip (lstrip s).

(** [sub in s]: [sub] occurs in [s] starting at some position. *)
Fixpoint contains (sub s : string) : bool :=
  if String.prefix sub s then true
  else match s with
       | EmptyString => false
       | String _ t => contains sub t
       end.

(** [not s]: the empty string is the only falsy string. *)
Definition is_empty (s : string) : bool :=
  match s with
  | EmptyString => true
  | String _ _ => false
  end.

Definition LF : ascii := ascii_of_nat 10.
Definition CR : ascii := ascii_of_nat 13.

End PyStr.

(** ** The Judge (line 173) *)

(** [passed = pair['answer'].lower() in final_answer.lower()] *)
Definition passed (expected actual : string) : bool :=
  PyStr.contains (PyStr.lower expected) (PyStr.lower actual).

(** ** Data model *)

(** An entry of [qa_pairs]: a dict with the keys [question] and [answer]. *)
Record QAPair := mkPair { question : string; answer : string }.

(** [qa_pairs[i]['answer'] = v]: the dict at index [i] with [answer]
    replaced. *)
Definition set_answer (p : QAPair) (v : string) : QAPair :=
  {| question := question p; answer := v |}.

(** An entry of [results] (lines 193-198). *)
Record EvalResult := mkResult {
  r_question : string;
  r_expected : string;
  r_actual : string;
  r_passed : bool
}.

(** A tool as the session lists it, and as it is declared to the model
    service (lines 97-101); the schema is kept as an opaque token. *)
Record McpTool := mkMcpTool {
  mcp_name : string;
  mcp_description : string;
  mcp_inputSchema : string
}.

Record ToolDescriptor := mkTool {
  td_name : string;
  td_description : string;
  td_input_schema : string
}.

(** A block of a response's [content]: [block.type] is ["text"],
    ["tool_use"] or something else; the tool input is an opaque token. *)
Inductive Block : Type :=
| TextBlock (text : string)
| ToolUseBlock (id name input : string)
| OtherBlock (type : string).

(** The dict appended to [tool_results] (lines 141-145). *)
Record ToolResultBlock := mkToolResult {
  tool_use_id : string;
  tr_content : string
}.

Inductive Content : Type :=
| ContentText (s : string)
| ContentBlocks (blocks : list Block)
| ContentResults (tool_results : list ToolResultBlock).

Record Message := mkMessage { role : string; content : Content }.

(** What [client.messages.create] returns. *)
Record Response := mkResponse {
  stop_reason : string;
  resp_content : list Block
}.

(** An item of a tool result's [content]: it has a [text] attribute, or it
    is rendered with [str(item)]. *)
Inductive ContentItem : Type :=
| TextItem (text : string)
| OtherItem (rendered : string).

(** What [session.call_tool] returns when it returns; the script never
    reads [isError]. *)
Record CallToolResult := mkCallToolResult {
  isError : bool;
  result_content : list ContentItem
}.

(** A call either returns or raises an exception (kept as its message). *)
Inductive outcome (A : Type) : Type :=
| Returned (a : A)
| Raised (e : string).
Arguments Returned {A} a.
Arguments Raised {A} e.

(** ** ElementTree *)

(** An [xml.etree.ElementTree.Element]: tag, text, tail and children (the
    script uses no attributes). *)
Inductive Element : Type :=
| Elem (tag : string) (text tail : option string) (children : list Element).

Definition elem_tag (e : Element) : string :=
  match e with Elem tg _ _ _ => tg end.
Definition elem_text (e : Element) : option string :=
  match e with Elem _ tx _ _ => tx end.
Definition elem_tail (e : Element) : option string :=
  match e with Elem _ _ tl _ => tl end.
Definition elem_children (e : Element) : list Element :=
  match e with Elem _ _ _ cs => cs end.
Definition set_tail (e : Element) (tl : string) : Element :=
  match e with Elem tg tx _ cs => Elem tg tx (Some tl) cs end.

(** The contents of the dataset file: text that is no well-formed
    document, or a document, given by the root element that [ET.parse]
    returns for it. *)
Inductive FileContents : Type :=
| NotXml
| Document (root : Element).

(** ** Requests and environment *)

Inductive event : Type :=
| EvInitialize
| EvListTools
| EvModel (messages : list Message) (tools : list ToolDescriptor)
| EvTool (name input : string)
| EvInput (prompt : string)
| EvError (e : string)
| EvSave (pairs : list QAPair)
| EvWrite (contents : FileContents)
| EvSaveStatus (ok : bool)
| EvSummary (total passed_count : nat).

Record Env := mkEnv {
  (** [os.path.exists(SERVER_SCRIPT)] *)
  server_script_exists : bool;
  (** the dataset file, [None] when [os.path.exists(EVALUATION_FILE)] is
      false *)
  evaluation_file : option FileContents;
  (** [os.environ.get("ANTHROPIC_API_KEY")] is truthy *)
  api_key_set : bool;
  (** opening the transport and the session, and [session.initialize()] *)
  session_initialize : outcome unit;
  (** [session.list_tools()] *)
  session_list_tools : outcome (list McpTool);
  (** [client.messages.create(model, max_tokens, messages, tools)] *)
  messages_create :
    list event -> list Message -> list ToolDescriptor -> outcome Response;
  (** [session.call_tool(name, input)] *)
  session_call_tool : list event -> string -> string -> outcome CallToolResult;
  (** [input(prompt)] *)
  console_input : list event -> string -> outcome string;
  (** [tree.write(filepath, ...)] *)
  file_write : list event -> FileContents -> outcome unit
}.

(** ** Programs: history in, emitted events and an outcome out *)

(** A piece of the coroutine: given the events emitted before it starts,
    it emits events and either returns a value or raises.  Sequencing
    stops at the first exception, as Python does. *)
Definition Prog (A : Type) : Type := list event -> list event * outcome A.

Definition ret {A : Type} (a : A) : Prog A := fun _ => ([], Returned a).

Definition bind {A B : Type} (m : Prog A) (k : A -> Prog B) : Prog B :=
  fun h =>
    match m h with
    | (evs, Raised e) => (evs, Raised e)
    | (evs, Returned a) =>
        match k a (h ++ evs) with
        | (evs', out) => (evs ++ evs', out)
        end
    end.

Notation "x <- m ;; k" := (bind m (fun x => k))
  (at level 100, m at next level, right associativity).

(** The three awaited calls of the loop. *)
Definition call_model (env : Env) (messages : list Message)
    (tools : list ToolDescriptor) : Prog Response :=
  fun h => ([EvModel messages tools], messages_create env h messages tools).

Definition call_tool (env : Env) (name input : string) : Prog CallToolResult :=
  fun h => ([EvTool name input], session_call_tool env h name input).

Definition ask (env : Env) (prompt : string) : Prog string :=
  fun h => ([EvInput prompt], console_input env h prompt).

(** ** ElementTree operations *)

(** [not t or not t.strip()] for a text or tail. *)
Definition blank (t : option string) : bool :=
  match t with
  | None => true
  | Some s => PyStr.is_empty s || PyStr.is_empty (PyStr.strip s)
  end.

Fixpoint spaces (level : nat) : string :=
  match level with
  | 0 => EmptyString
  | S k => "  " +:+ spaces k
  end.

(** ["\n" + level * space] with [space = "  "]. *)
Definition indentation (level : nat) : string := String PyStr.LF (spaces level).

(** The loop over the children in [_indent_children(elem, level)] of
    [ET.indent]; [recurse] is the recursive call on a child that has
    children of its own.  A blank tail becomes the children's
    indentation, and the last child's tail is dedented. *)
Definition indent_child_list (recurse : Element -> Element) (level : nat)
    : list Element -> list Element :=
  fix loop (cs : list Element) : list Element :=
    match cs with
    | [] => []
    | child :: rest =>
        let child1 :=
          match elem_children child with
          | [] => child
          | _ :: _ => recurse child
          end in
        let child2 :=
          if blank (elem_tail child1)
          then set_tail child1 (indentation (S level)) else child1 in
        match rest with
        | [] =>
            [if blank (elem_tail child2)
             then set_tail child2 (indentation level) else child2]
        | _ :: _ => child2 :: loop rest
        end
    end.

(** [_indent_children(elem, level)]: a blank text of [elem] becomes the
    children's indentation, then the children are visited. *)
Fixpoint indent_children (level : nat) (elem : Element) {struct elem}
    : Element :=
  match elem with
  | Elem tg tx tl cs =>
      Elem tg (if blank tx then Some (indentation (S level)) else tx) tl
        (indent_child_list (indent_children (S level)) level cs)
  end.

(** [ET.indent(tree, space="  ", level=0)]: nothing to do for an element
    without children. *)
Definition indent (tree : Element) : Element :=
  match elem_children tree with
  | [] => tree
  | _ :: _ => indent_children 0 tree
  end.

(** A character that XML 1.0 allows, by its production [Char]: TAB, LF,
    CR, U+0020..U+D7FF, U+E000..U+FFFD and U+10000..U+10FFFF.  Of the
    characters modelled only the first four cases occur; the noncharacters
    U+FFFE and U+FFFF and the surrogates, which the writer writes and the
    parser rejects, lie outside them. *)
Definition xml_char_ok (c : ascii) : bool :=
  let n := N_of_ascii c in
  (N.eqb n 9 || N.eqb n 10 || N.eqb n 13
   || (N.leb 32 n && N.leb n 55295)
   || (N.leb 57344 n && N.leb n 65533)
   || (N.leb 65536 n && N.leb n 1114111))%bool.

(** End-of-line handling of the parser: CR LF and a lone CR are read as
    LF. *)
Fixpoint normalize_newlines (s : string) : string :=
  match s with
  | EmptyString => EmptyString
  | String c t =>
      if Ascii.eqb c PyStr.CR then
        String PyStr.LF
          match t with
          | EmptyString => EmptyString
          | String d u =>
              if Ascii.eqb d PyStr.LF then normalize_newlines u
              else normalize_newlines t
          end
      else String c (normalize_newlines t)
  end.

(** What the parser returns for a text or tail that the writer wrote: the
    writer escapes the markup characters and the parser undoes it, an
    empty text is read as no text, and the document is not well formed
    when the text holds a character that XML excludes. *)
Definition read_text (t : option string) : option (option string) :=
  match t with
  | None => Some None
  | Some s =>
      if PyStr.is_empty s then Some None
      else if PyStr.all_chars xml_char_ok s
           then Some (Some (normalize_newlines s))
           else None
  end.

Definition read_all {A B : Type} (f : A -> option B)
    : list A -> option (list B) :=
  fix loop (l : list A) : option (list B) :=
    match l with
    | [] => Some []
    | a :: rest =>
        match f a, loop rest with
        | Some b, Some rest' => Some (b :: rest')
        | _, _ => None
        end
    end.

Fixpoint read_element (e : Element) {struct e} : option Element :=
  match e with
  | Elem tg tx tl cs =>
      match read_text tx, read_text tl, read_all read_element cs with
      | Some tx', Some tl', Some cs' => Some (Elem tg tx' tl' cs')
      | _, _, _ => None
      end
  end.

(** The contents of the file after [tree.write(filepath, encoding="UTF-8",
    xml_declaration=True)] has written [root]. *)
Definition written (root : Element) : FileContents :=
  match read_element root with
  | Some r => Document r
  | None => NotXml
  end.

(** [ET.parse(EVALUATION_FILE).getroot()] *)
Definition et_parse (f : FileContents) : outcome Element :=
  match f with
  | NotXml => Raised "not well-formed"
  | Document root => Returned root
  end.

(** [elem.find(tg)]: the first child with that tag, and
    [elem.findall(tg)]: all children with that tag, in document order. *)
Definition et_find (tg : string) (e : Element) : option Element :=
  List.find (fun c => String.eqb (elem_tag c) tg) (elem_children e).

Definition et_findall (tg : string) (e : Element) : list Element :=
  List.filter (fun c => String.eqb (elem_tag c) tg) (elem_children e).

(** ** Dataset store *)

Definition qa_pair_element (pair : QAPair) : Element :=
  Elem "qa_pair" None None
    [ Elem "question" (Some (question pair)) None [];
      Elem "answer" (Some (answer pair)) None [] ].

(** Lines 26-32: the tree built from [qa_pairs]. *)
Definition build_tree (qa_pairs : list QAPair) : Element :=
  Elem "evaluation" None None (map qa_pair_element qa_pairs).

(** The file that [save_evaluation_file] writes (lines 26-39). *)
Definition saved_file (qa_pairs : list QAPair) : FileContents :=
  written (indent (build_tree qa_pairs)).

(** [save_evaluation_file(qa_pairs, filepath)] (lines 24-42): a failed
    write is reported and swallowed. *)
Definition save_evaluation_file (env : Env) (qa_pairs : list QAPair)
    (h : list event) : list event :=
  let contents := saved_file qa_pairs in
  let h1 := h ++ [EvSave qa_pairs] in
  match file_write env h1 contents with
  | Returned _ => [EvSave qa_pairs; EvWrite contents; EvSaveStatus true]
  | Raised _ => [EvSave qa_pairs; EvWrite contents; EvSaveStatus false]
  end.

(** The [qa_pair] element of [pair] as the saved file holds it, indented,
    with the tail [tl] after its end tag. *)
Definition stored_pair (pair : QAPair) (tl : string) : Element :=
  Elem "qa_pair" (Some (indentation 2)) (Some tl)
    [ Elem "question" (Some (question pair)) (Some (indentation 2)) [];
      Elem "answer" (Some (answer pair)) (Some (indentation 1)) [] ].

(** The children of the root in the saved file: every [qa_pair] element
    is followed by the indentation of the next one, the last one by a
    line break. *)
Fixpoint stored_pairs (l : list QAPair) : list Element :=
  match l with
  | [] => []
  | p :: rest =>
      stored_pair p
        (indentation match rest with [] => 0 | _ :: _ => 1 end)
      :: stored_pairs rest
  end.

(** A field that the dataset file keeps as it is: not empty, free of
    control characters, made of characters that XML allows, and without
    whitespace at either end. *)
Definition kept_field (s : string) : Prop :=
  PyStr.is_empty s = false
  /\ PyStr.no_control s = true
  /\ PyStr.all_chars xml_char_ok s = true
  /\ PyStr.strip s = s.

(** Lines 69-71 for one [qa_pair] element: a missing child or a child
    without text makes the attribute access on [None] raise. *)
Definition parse_pair (pair : Element) : outcome QAPair :=
  match et_find "question" pair with
  | None => Raised "'NoneType' object has no attribute 'text'"
  | Some qe =>
      match et_find "answer" pair with
      | None => Raised "'NoneType' object has no attribute 'text'"
      | Some ae =>
          match elem_text qe, elem_text ae with
          | Some q, Some a =>
              Returned {| question := PyStr.strip q; answer := PyStr.strip a |}
          | _, _ => Raised "'NoneType' object has no attribute 'strip'"
          end
      end
  end.

Fixpoint parse_pairs (elems : list Element) : outcome (list QAPair) :=
  match elems with
  | [] => Returned []
  | e :: rest =>
      match parse_pair e with
      | Raised x => Raised x
      | Returned p =>
          match parse_pairs rest with
          | Raised x => Raised x
          | Returned ps => Returned (p :: ps)
          end
      end
  end.

(** Lines 65-71: parse the file and collect the pairs. *)
Definition load_evaluation_file (f : FileContents) : outcome (list QAPair) :=
  match et_parse f with
  | Raised e => Raised e
  | Returned root => parse_pairs (et_findall "qa_pair" root)
  end.

(** ** Agent turn (lines 109-168) *)

(** Lines 159-161 and 164-166: the text of the ["text"] blocks, appended
    in order to the empty string. *)
Fixpoint text_of (blocks : list Block) : string :=
  match blocks with
  | [] => EmptyString
  | TextBlock t :: rest => t +:+ text_of rest
  | _ :: rest => text_of rest
  end.

(** Lines 134-139: the items of a tool result as one string. *)
Fixpoint content_to_str (items : list ContentItem) : string :=
  match items with
  | [] => EmptyString
  | TextItem t :: rest => t +:+ content_to_str rest
  | OtherItem r :: rest => r +:+ content_to_str rest
  end.

(** Lines 126-146: one awaited tool call per ["tool_use"] block, in block
    order; the first call that raises ends the loop. *)
Fixpoint exec_tools (env : Env) (blocks : list Block)
    : Prog (list ToolResultBlock) :=
  match blocks with
  | [] => ret []
  | ToolUseBlock id name input :: rest =>
      result <- call_tool env name input ;;
      let content_str := content_to_str (result_content result) in
      tool_results <- exec_tools env rest ;;
      ret ({| tool_use_id := id; tr_content := content_str |} :: tool_results)
  | _ :: rest => exec_tools env rest
  end.

Definition user_text (s : string) : Message :=
  {| role := "user"; content := ContentText s |}.

(** Lines 109-168: the question goes to the model service; when its stop
    reason is ["tool_use"] the tools run and the extended conversation goes
    to the model service once more.  The answer is stripped. *)
Definition agent_turn (env : Env) (tools : list ToolDescriptor)
    (question : string) : Prog string :=
  let messages := [user_text question] in
  response <- call_model env messages tools ;;
  if String.eqb (stop_reason response) "tool_use" then
    let messages1 :=
      messages
      ++ [{| role := "assistant";
             content := ContentBlocks (resp_content response) |}] in
    tool_results <- exec_tools env (resp_content response) ;;
    let messages2 :=
      messages1
      ++ [{| role := "user"; content := ContentResults tool_results |}] in
    final_response <- call_model env messages2 tools ;;
    ret (PyStr.strip (text_of (resp_content final_response)))
  else
    ret (PyStr.strip (text_of (resp_content response))).

(** ** Judge, update controller and result (lines 173-198) *)

(** The variables of [run_evaluation] that the loop changes. *)
Record LoopState := mkState {
  qa_pairs : list QAPair;
  results : list EvalResult;
  updates_made : bool
}.

(** Line 181: the prompt. *)
Definition update_prompt (final_answer : string) : string :=
  "Update ground truth to '" +:+ final_answer +:+ "'? (y/n): ".

(** Line 182 applied to what the operator typed. *)
Definition accepts (typed : string) : bool :=
  String.eqb (PyStr.lower typed) "y".

(** Lines 193-198.  [pair] is the dict [qa_pairs[i]] itself, so the entry
    reads the answer as it is after line 183. *)
Definition record_result (pair : QAPair) (final_answer : string)
    (is_passed : bool) : EvalResult :=
  {| r_question := question pair;
     r_expected := answer pair;
     r_actual := final_answer;
     r_passed := is_passed |}.

(** Lines 183-185 followed by lines 193-198: the dict at index [i] gets
    the new answer, [updates_made] and [passed] become true, and the
    entry is appended. *)
Definition accept_update (i : nat) (pair : QAPair) (final_answer : string)
    (st : LoopState) : LoopState :=
  let pair' := set_answer pair final_answer in
  {| qa_pairs := <[i := pair']> (qa_pairs st);
     results := results st ++ [record_result pair' final_answer true];
     updates_made := true |}.

(** Lines 193-198 alone. *)
Definition append_result (pair : QAPair) (final_answer : string)
    (is_passed : bool) (st : LoopState) : LoopState :=
  {| qa_pairs := qa_pairs st;
     results := results st ++ [record_result pair final_answer is_passed];
     updates_made := updates_made st |}.

(** Lines 173-198 for the pair at index [i]. *)
Definition judge_and_record (env : Env) (update : bool) (i : nat)
    (pair : QAPair) (final_answer : string) (st : LoopState)
    : Prog LoopState :=
  let is_passed := passed (answer pair) final_answer in
  if negb is_passed && update then
    typed <- ask env (update_prompt final_answer) ;;
    if accepts typed
    then ret (accept_update i pair final_answer st)
    else ret (append_result pair final_answer is_passed st)
  else
    ret (append_result pair final_answer is_passed st).

(** One iteration of the loop of line 105. *)
Definition eval_pair (env : Env) (update : bool)
    (tools : list ToolDescriptor) (i : nat) (pair : QAPair) (st : LoopState)
    : Prog LoopState :=
  final_answer <- agent_turn env tools (question pair) ;;
  judge_and_record env update i pair final_answer st.

(** ** Run orchestrator *)

(** The loop of line 105 from index [i], for at most [n] iterations (the
    list iterator ends when the index runs past the list).  An exception
    leaves the loop with the variables as they are; it is handed to the
    handler of line 200. *)
Fixpoint eval_loop (env : Env) (update : bool) (tools : list ToolDescriptor)
    (n i : nat) (st : LoopState) (h : list event)
    : list event * (LoopState * option string) :=
  match n with
  | 0 => ([], (st, None))
  | S n' =>
      match qa_pairs st !! i with
      | None => ([], (st, None))
      | Some p =>
          match eval_pair env update tools i p st h with
          | (evs, Raised e) => (evs, (st, Some e))
          | (evs, Returned st') =>
              match eval_loop env update tools n' (S i) st' (h ++ evs) with
              | (evs', r) => (evs ++ evs', r)
              end
          end
      end
  end.

(** Lines 97-101. *)
Definition declare (t : McpTool) : ToolDescriptor :=
  {| td_name := mcp_name t;
     td_description := mcp_description t;
     td_input_schema := mcp_inputSchema t |}.

(** Lines 86-198, the body of the [try]: session set-up, tool listing and
    the loop.  The result holds the loop variables on leaving the block and
    the exception, if one left it. *)
Definition try_block (env : Env) (update : bool) (pairs : list QAPair)
    (h : list event) : list event * (LoopState * option string) :=
  let st0 := {| qa_pairs := pairs; results := []; updates_made := false |} in
  match session_initialize env with
  | Raised e => ([EvInitialize], (st0, Some e))
  | Returned _ =>
      match session_list_tools env with
      | Raised e => ([EvInitialize; EvListTools], (st0, Some e))
      | Returned listed =>
          let anthropic_tools := map declare listed in
          let evs0 := [EvInitialize; EvListTools] in
          match eval_loop env update anthropic_tools (length pairs) 0 st0
                  (h ++ evs0) with
          | (evs, r) => (evs0 ++ evs, r)
          end
      end
  end.

(** Line 211. *)
Definition count_passed (rs : list EvalResult) : nat :=
  length (List.filter r_passed rs).

(** How a run ends. *)
Inductive RunExit : Type :=
| ServerScriptMissing
| EvaluationFileMissing
| ApiKeyMissing
| ParseFailed (e : string)
| Completed (st : LoopState) (aborted : option string).

(** Lines 200-216: what follows the [try] block. *)
Definition after_try (env : Env) (st : LoopState) (aborted : option string)
    (h : list event) : list event :=
  let handler :=
    match aborted with
    | Some e => [EvError e]
    | None => []
    end in
  let saving :=
    if updates_made st
    then save_evaluation_file env (qa_pairs st) (h ++ handler)
    else [] in
  handler ++ saving
  ++ [EvSummary (length (results st)) (count_passed (results st))].

(** [run_evaluation()] with [args.update = update]: the trace of the run
    and how it ended. *)
Definition run_evaluation (env : Env) (update : bool)
    : list event * RunExit :=
  if negb (server_script_exists env) then ([], ServerScriptMissing)
  else
    match evaluation_file env with
    | None => ([], EvaluationFileMissing)
    | Some f =>
        if negb (api_key_set env) then ([], ApiKeyMissing)
        else
          match load_evaluation_file f with
          | Raised e => ([], ParseFailed e)
          | Returned pairs =>
              match try_block env update pairs [] with
              | (evs, (st, aborted)) =>
                  (evs ++ after_try env st aborted evs, Completed st aborted)
              end
          end
    end.

(** ** Observations on traces *)

Definition is_model_call (e : event) : bool :=
  match e with
  | EvModel _ _ => true
  | _ => false
  end.

(** The number of model-service calls in a trace. *)
Definition count_model (evs : list event) : nat :=
  length (List.filter is_model_call evs).

(** The tool-server calls of a trace, as (name, input), in order. *)
Fixpoint tool_calls (evs : list event) : list (string * string) :=
  match evs with
  | [] => []
  | EvTool name input :: rest => (name, input) :: tool_calls rest
  | _ :: rest => tool_calls rest
  end.

(** The tool-invocation requests of a response, as (name, input), in
    order. *)
Fixpoint tool_requests (blocks : list Block) : list (string * string) :=
  match blocks with
  | [] => []
  | ToolUseBlock _ name input :: rest => (name, input) :: tool_requests rest
  | _ :: rest => tool_requests rest
  end.

Definition tool_event (c : string * string) : event := EvTool c.1 c.2.

(** An event of the dataset write-back: the call of
    [save_evaluation_file] and what it does. *)
Definition is_save_event (e : event) : bool :=
  match e with
  | EvSave _ | EvWrite _ | EvSaveStatus _ => true
  | _ => false
  end.

Definition save_events (evs : list event) : list event :=
  List.filter is_save_event evs.

(** An event that the loop of line 105 can emit. *)
Definition is_loop_event (e : event) : bool :=
  match e with
  | EvModel _ _ | EvTool _ _ | EvInput _ => true
  | _ => false
  end.

(** ** Scenarios *)

Module Scenario.

(** An environment whose collaborators answer by the request alone. *)
Definition scripted (file : FileContents)
    (model : list Message -> outcome Response)
    (tool : string -> string -> outcome CallToolResult)
    (typed : outcome string) : Env :=
  {| server_script_exists := true;
     evaluation_file := Some file;
     api_key_set := true;
     session_initialize := Returned tt;
     session_list_tools :=
       Returned [mkMcpTool "list_dir" "List a directory" "{}"];
     messages_create := fun _ messages _ => model messages;
     session_call_tool := fun _ name input => tool name input;
     console_input := fun _ _ => typed;
     file_write := fun _ _ => Returned tt |}.

Definition tools : list ToolDescriptor :=
  [mkTool "list_dir" "List a directory" "{}"].

Definition text_response (s : string) : Response :=
  {| stop_reason := "end_turn"; resp_content := [TextBlock s] |}.

Definition list_dir_request : Response :=
  {| stop_reason := "tool_use";
     resp_content := [ToolUseBlock "toolu_1" "list_dir" "{}"] |}.

(** The model answers in text at once. *)
Definition text_model (s : string) (messages : list Message)
    : outcome Response :=
  Returned (text_response s).

(** The model asks for [first] on the first turn and answers [second] on
    the follow-up turn. *)
Definition two_turn_model (first : Response) (second : Response)
    (messages : list Message) : outcome Response :=
  match messages with
  | [_] => Returned first
  | _ => Returned second
  end.

Definition list_dir_ok (name input : string) : outcome CallToolResult :=
  Returned {| isError := false;
              result_content := [TextItem "a.txt, b.txt"] |}.

Definition tool_fails (name input : string) : outcome CallToolResult :=
  Raised "tool execution failed".

Definition no_tool (name input : string) : outcome CallToolResult :=
  Raised "unknown tool".

Definition list_dir_error (name input : string) : outcome CallToolResult :=
  Returned {| isError := true;
              result_content := [TextItem "Error: permission denied"] |}.

(** "2+2?" answered in text. *)
Definition arithmetic : Env :=
  scripted (saved_file [mkPair "2+2?" "4"])
    (text_model "The answer is 4.") no_tool (Returned "n").

(** "list files" answered after one tool call; the operator types
    [typed] when asked. *)
Definition listing (second : string) (typed : string) : Env :=
  scripted (saved_file [mkPair "list files" "a.txt"])
    (two_turn_model list_dir_request (text_response second))
    list_dir_ok (Returned typed).

(** Two questions; every tool call returns a result flagged as an
    error, and the model answers from it. *)
Definition reported_error : Env :=
  scripted (saved_file [mkPair "list files" "a.txt"; mkPair "2+2?" "4"])
    (two_turn_model list_dir_request (text_response "I cannot read a.txt"))
    list_dir_error (Returned "n").

(** The second response asks for a tool again. *)
Definition asks_again : Env :=
  scripted (saved_file [mkPair "list files" "a.txt"])
    (two_turn_model list_dir_request list_dir_request)
    list_dir_ok (Returned "n").

(** Two questions; every tool call raises. *)
Definition failing_tool : Env :=
  scripted (saved_file [mkPair "list files" "a.txt"; mkPair "2+2?" "4"])
    (two_turn_model list_dir_request (text_response "a.txt"))
    tool_fails (Returned "n").

(** The first response asks for two tools; every tool call raises. *)
Definition two_requests : Response :=
  {| stop_reason := "tool_use";
     resp_content :=
       [ToolUseBlock "toolu_1" "list_dir" "{}";
        ToolUseBlock "toolu_2" "list_dir" "{}"] |}.

Definition failing_first_of_two : Env :=
  scripted (saved_file [mkPair "list files" "a.txt"])
    (two_turn_model two_requests (text_response "a.txt"))
    tool_fails (Returned "n").

(** The first response was cut at the token limit inside a tool
    request. *)
Definition cut_request : Response :=
  {| stop_reason := "max_tokens";
     resp_content := [ToolUseBlock "toolu_1" "list_dir" "{}"] |}.

Definition cut_off : Env :=
  scripted (saved_file [mkPair "list files" "a.txt"])
    (two_turn_model cut_request (text_response "a.txt"))
    list_dir_ok (Returned "n").

(** Two questions: the first is answered wrongly and the operator accepts
    the answer; the model service raises on the second. *)
Definition abort_after_update : Env :=
  scripted (saved_file [mkPair "2+2?" "4"; mkPair "3+3?" "6"])
    (fun messages =>
       match messages with
       | [m] =>
           match content m with
           | ContentText "2+2?" => Returned (text_response " five ")
           | _ => Raised "overloaded"
           end
       | _ => Raised "overloaded"
       end)
    no_tool (Returned "Y").

End Scenario.

(** ** Further observations *)

(** The number of events of a trace that satisfy [p]. *)
Definition count_events (p : event -> bool) (evs : list event) : nat :=
  length (List.filter p evs).

Definition is_prompt (e : event) : bool :=
  match e with
  | EvInput _ => true
  | _ => false
  end.

Definition is_summary (e : event) : bool :=
  match e with
  | EvSummary _ _ => true
  | _ => false
  end.

Definition is_save_call (e : event) : bool :=
  match e with
  | EvSave _ => true
  | _ => false
  end.

Definition is_initialize (e : event) : bool :=
  match e with
  | EvInitialize => true
  | _ => false
  end.

Definition is_list_tools (e : event) : bool :=
  match e with
  | EvListTools => true
  | _ => false
  end.

(** A model-service call declares exactly [tools]; other events pass. *)
Definition declares (tools : list ToolDescriptor) (e : event) : Prop :=
  match e with
  | EvModel _ declared => declared = tools
  | _ => True
  end.

(** The ids of the tool-invocation requests of a response, in order. *)
Fixpoint request_ids (blocks : list Block) : list string :=
  match blocks with
  | [] => []
  | ToolUseBlock id _ _ :: rest => id :: request_ids rest
  | _ :: rest => request_ids rest
  end.

(** Line 71 on a pair: both fields stripped. *)
Definition stripped (p : QAPair) : QAPair :=
  {| question := PyStr.strip (question p); answer := PyStr.strip (answer p) |}.

Definition has_empty_field (p : QAPair) : bool :=
  PyStr.is_empty (question p) || PyStr.is_empty (answer p).

(** The text of a field element as the saved file holds it: an empty
    field leaves the element without text. *)
Definition field_text (s : string) : option string :=
  if PyStr.is_empty s then None else Some s.

(** The [qa_pair] element of [pair] in the saved file, for fields that
    may be empty. *)
Definition file_pair (pair : QAPair) (tl : string) : Element :=
  Elem "qa_pair" (Some (indentation 2)) (Some tl)
    [ Elem "question" (field_text (question pair)) (Some (indentation 2)) [];
      Elem "answer" (field_text (answer pair)) (Some (indentation 1)) [] ].

Fixpoint file_pairs (l : list QAPair) : list Element :=
  match l with
  | [] => []
  | p :: rest =>
      file_pair p (indentation match rest with [] => 0 | _ :: _ => 1 end)
      :: file_pairs rest
  end.

(** The root element of the saved file. *)
Definition file_root (l : list QAPair) : Element :=
  Elem "evaluation"
    match l with [] => None | _ :: _ => Some (indentation 1) end
    None (file_pairs l).

(** Both fields of a pair are made of characters that XML allows. *)
Definition xml_fields (p : QAPair) : Prop :=
  PyStr.all_chars xml_char_ok (question p) = true
  /\ PyStr.all_chars xml_char_ok (answer p) = true.

(** An ASCII character: a code point below 128. *)
Definition is_ascii (c : ascii) : bool := PyStr.code c <? 128.

(** Unicode full case folding of one character below 256, which is what
    the word case-folded names: the lowercase letter, except that the
    sharp s, U+00DF, folds to the two letters [ss].  The micro sign,
    U+00B5, folds to U+03BC, which lies outside the characters modelled,
    hence [None]. *)
Definition casefold_char (c : ascii) : option string :=
  if PyStr.code c =? 223 then Some "ss"
  else if PyStr.code c =? 181 then None
  else Some (String (PyStr.lower_char c) EmptyString).

Fixpoint casefold (s : string) : option string :=
  match s with
  | EmptyString => Some EmptyString
  | String c t =>
      match casefold_char c, casefold t with
      | Some a, Some b => Some (a +:+ b)
      | _, _ => None
      end
  end.

(** The one-character string of the sharp s, U+00DF. *)
Definition sharp_s : string := String (ascii_of_nat 223) EmptyString.

(** The Judge read with case folding in place of lowercasing. *)
Definition passed_casefolded (expected actual : string) : option bool :=
  match casefold expected, casefold actual with
  | Some e, Some a => Some (PyStr.contains e a)
  | _, _ => None
  end.

(** A character whose case folding is its lowercase letter. *)
Definition folds_as_lower (c : ascii) : bool :=
  negb (PyStr.code c =? 223) && negb (PyStr.code c =? 181).

(** The requests that get a tool call when they are served in order until
    a call raises: every request up to and including the first one whose
    call raises.  [h] is the history before the first call. *)
Fixpoint served_requests (env : Env) (h : list event)
    (requests : list (string * string)) : list (string * string) :=
  match requests with
  | [] => []
  | (name, input) :: rest =>
      (name, input)
      :: match session_call_tool env h name input with
         | Returned _ => served_requests env (h ++ [EvTool name input]) rest
         | Raised _ => []
         end
  end.

(** The environment [env] with the [isError] flag of every tool result
    replaced by [flag]. *)
Definition with_is_error (flag : bool) (env : Env) : Env :=
  {| server_script_exists := server_script_exists env;
     evaluation_file := evaluation_file env;
     api_key_set := api_key_set env;
     session_initialize := session_initialize env;
     session_list_tools := session_list_tools env;
     messages_create := messages_create env;
     session_call_tool := fun h name input =>
       match session_call_tool env h name input with
       | Returned r =>
           Returned {| isError := flag; result_content := result_content r |}
       | Raised e => Raised e
       end;
     console_input := console_input env;
     file_write := file_write env |}.

(** * Properties *)

(** ** Strings *)

Section StringFacts.

Lemma prefix_iff (p s : string) :
  String.prefix p s = true <-> exists post, s = p +:+ post.
Proof.
  revert s; induction p as [|c p IH]; intros s.
  - split; [intros _; exists s; reflexivity | intros _; destruct s; reflexivity].
  - destruct s as [|d s]; simpl.
    + split; [discriminate | intros [post H]; discriminate].
    + destruct (Ascii.ascii_dec c d) as [->|Hne].
      * rewrite IH. split; intros [post H]; exists post.
        -- now rewrite H.
        -- now inversion H.
      * split; [discriminate | intros [post H]; inversion H; congruence].
Qed.

Lemma contains_unfold (sub s : string) :
  PyStr.contains sub s =
  if String.prefix sub s then true
  else match s with
       | EmptyString => false
       | String _ t => PyStr.contains sub t
       end.
Proof. destruct s; reflexivity. Qed.

Lemma contains_iff (sub s : string) :
  PyStr.contains sub s = true <-> exists pre post, s = pre +:+ sub +:+ post.
Proof.
  induction s as [|c s IH]; rewrite contains_unfold.
  - destruct (String.prefix sub EmptyString) eqn:E.
    + split; [intros _ | reflexivity].
      apply prefix_iff in E as [post E]. exists EmptyString, post. exact E.
    + split; [discriminate |].
      intros (pre & post & H). destruct pre; simpl in H.
      * assert (String.prefix sub EmptyString = true)
          by (apply prefix_iff; eauto).
        congruence.
      * discriminate.
  - destruct (String.prefix sub (String c s)) eqn:E.
    + split; [intros _ | reflexivity].
      apply prefix_iff in E as [post E]. exists EmptyString, post. exact E.
    + rewrite IH. split.
      * intros (pre & post & H). exists (String c pre), post.
        simpl. now rewrite H.
      * intros (pre & post & H). destruct pre as [|d pre]; simpl in H.
        -- assert (String.prefix sub (String c s) = true)
             by (apply prefix_iff; eauto).
           congruence.
        -- inversion H; subst. eauto.
Qed.

Lemma contains_empty (s : string) : PyStr.contains EmptyString s = true.
Proof. apply contains_iff. exists EmptyString, s. reflexivity. Qed.

Lemma lower_empty_inv (s : string) :
  PyStr.lower s = EmptyString -> s = EmptyString.
Proof. destruct s; [reflexivity | discriminate]. Qed.

(** The two characters that lowercase to [y]. *)
Lemma lower_char_y (c : ascii) :
  PyStr.lower_char c = "y"%char -> c = "y"%char \/ c = "Y"%char.
Proof.
  destruct c as [[] [] [] [] [] [] [] []]; vm_compute; intros H;
    solve [discriminate H | left; reflexivity | right; reflexivity].
Qed.

Lemma lstrip_all_space (s : string) :
  PyStr.all_chars PyStr.is_space s = true -> PyStr.lstrip s = EmptyString.
Proof.
  induction s as [|c t IH]; simpl; [reflexivity |].
  intros H. apply andb_true_iff in H as [Hc Ht]. rewrite Hc. auto.
Qed.

Lemma strip_all_space (s : string) :
  PyStr.all_chars PyStr.is_space s = true -> PyStr.strip s = EmptyString.
Proof.
  intros H. unfold PyStr.strip. rewrite (lstrip_all_space s H). reflexivity.
Qed.

End StringFacts.

(** ** More on strings *)

Section MoreStringFacts.

Lemma str_app_nil_r (s : string) : s +:+ EmptyString = s.
Proof. induction s as [|c t IH]; simpl; [reflexivity | now rewrite IH]. Qed.

Lemma str_app_assoc (a b c : string) : (a +:+ b) +:+ c = a +:+ b +:+ c.
Proof. induction a as [|x a IH]; simpl; [reflexivity | now rewrite IH]. Qed.

Lemma lower_app (a b : string) :
  PyStr.lower (a +:+ b) = PyStr.lower a +:+ PyStr.lower b.
Proof. induction a as [|x a IH]; simpl; [reflexivity | now rewrite IH]. Qed.

Lemma lower_char_idem (c : ascii) :
  PyStr.lower_char (PyStr.lower_char c) = PyStr.lower_char c.
Proof. destruct c as [[] [] [] [] [] [] [] []]; reflexivity. Qed.

Lemma lower_idem (s : string) : PyStr.lower (PyStr.lower s) = PyStr.lower s.
Proof.
  induction s as [|c t IH]; simpl; [reflexivity |].
  now rewrite lower_char_idem, IH.
Qed.

Lemma contains_refl (s : string) : PyStr.contains s s = true.
Proof.
  apply contains_iff. exists EmptyString, EmptyString.
  simpl. now rewrite str_app_nil_r.
Qed.

Lemma rev_app (a b : string) :
  PyStr.rev (a +:+ b) = PyStr.rev b +:+ PyStr.rev a.
Proof.
  induction a as [|x a IH]; simpl.
  - now rewrite str_app_nil_r.
  - now rewrite IH, str_app_assoc.
Qed.

Lemma rev_involutive (s : string) : PyStr.rev (PyStr.rev s) = s.
Proof.
  induction s as [|c t IH]; simpl; [reflexivity |].
  now rewrite rev_app, IH.
Qed.

Lemma lstrip_idem (s : string) :
  PyStr.lstrip (PyStr.lstrip s) = PyStr.lstrip s.
Proof.
  induction s as [|c t IH]; simpl; [reflexivity |].
  destruct (PyStr.is_space c) eqn:E; [exact IH |].
  simpl. now rewrite E.
Qed.

(** A trailing character that is no whitespace survives [lstrip]. *)
Lemma lstrip_snoc (s : string) (c : ascii) :
  PyStr.is_space c = false ->
  PyStr.lstrip (s +:+ String c EmptyString)
  = PyStr.lstrip s +:+ String c EmptyString.
Proof.
  intros Hc. induction s as [|d t IH]; simpl.
  - now rewrite Hc.
  - destruct (PyStr.is_space d); [exact IH | reflexivity].
Qed.

Lemma rstrip_idem (s : string) :
  PyStr.rstrip (PyStr.rstrip s) = PyStr.rstrip s.
Proof. unfold PyStr.rstrip. now rewrite rev_involutive, lstrip_idem. Qed.

(** What [lstrip] returns is empty or starts with a character that is no
    whitespace. *)
Lemma lstrip_head (s : string) :
  PyStr.lstrip s = EmptyString
  \/ exists c t, PyStr.lstrip s = String c t /\ PyStr.is_space c = false.
Proof.
  induction s as [|c t IH]; simpl; [now left |].
  destruct (PyStr.is_space c) eqn:E; [exact IH |].
  right. exists c, t. auto.
Qed.

(** [rstrip] keeps a first character that is no whitespace. *)
Lemma rstrip_head (c : ascii) (t : string) :
  PyStr.is_space c = false ->
  exists u, PyStr.rstrip (String c t) = String c u.
Proof.
  intros Hc. unfold PyStr.rstrip.
  change (PyStr.rev (String c t)) with (PyStr.rev t +:+ String c EmptyString).
  rewrite (lstrip_snoc _ c Hc), rev_app. simpl. eauto.
Qed.

Lemma lstrip_rstrip_lstrip (s : string) :
  PyStr.lstrip (PyStr.rstrip (PyStr.lstrip s))
  = PyStr.rstrip (PyStr.lstrip s).
Proof.
  destruct (lstrip_head s) as [-> | (c & t & -> & Hc)]; [reflexivity |].
  destruct (rstrip_head c t Hc) as [u ->]. simpl. now rewrite Hc.
Qed.

Lemma strip_idem (s : string) : PyStr.strip (PyStr.strip s) = PyStr.strip s.
Proof.
  unfold PyStr.strip. now rewrite lstrip_rstrip_lstrip, rstrip_idem.
Qed.

Lemma all_chars_app (p : ascii -> bool) (a b : string) :
  PyStr.all_chars p (a +:+ b) = PyStr.all_chars p a && PyStr.all_chars p b.
Proof.
  induction a as [|x a IH]; simpl; [reflexivity |].
  now rewrite IH, andb_assoc.
Qed.

Lemma all_chars_rev (p : ascii -> bool) (s : string) :
  PyStr.all_chars p (PyStr.rev s) = PyStr.all_chars p s.
Proof.
  induction s as [|c t IH]; simpl; [reflexivity |].
  rewrite all_chars_app, IH. simpl. rewrite andb_true_r. apply andb_comm.
Qed.

(** [lstrip] removes a prefix of whitespace. *)
Lemma lstrip_split (s : string) :
  exists ws,
    s = ws +:+ PyStr.lstrip s /\ PyStr.all_chars PyStr.is_space ws = true.
Proof.
  induction s as [|c t (ws & Heq & Hws)]; simpl.
  - exists EmptyString. auto.
  - destruct (PyStr.is_space c) eqn:E.
    + exists (String c ws). simpl. rewrite E, Hws, <- Heq. auto.
    + exists EmptyString. auto.
Qed.

(** [rstrip] removes a suffix of whitespace. *)
Lemma rstrip_split (s : string) :
  exists ws,
    s = PyStr.rstrip s +:+ ws /\ PyStr.all_chars PyStr.is_space ws = true.
Proof.
  destruct (lstrip_split (PyStr.rev s)) as (ws & Heq & Hws).
  exists (PyStr.rev ws). split; [| now rewrite all_chars_rev].
  unfold PyStr.rstrip. rewrite <- rev_app, <- Heq. symmetry.
  apply rev_involutive.
Qed.

(** What [strip] does: it removes whitespace at both ends, and what it
    returns neither starts nor ends with whitespace. *)
Lemma strip_spec (s : string) :
  (exists ws1 ws2,
     s = ws1 +:+ PyStr.strip s +:+ ws2
     /\ PyStr.all_chars PyStr.is_space ws1 = true
     /\ PyStr.all_chars PyStr.is_space ws2 = true)
  /\ (forall c t, PyStr.strip s = String c t -> PyStr.is_space c = false)
  /\ (forall t c,
        PyStr.strip s = t +:+ String c EmptyString ->
        PyStr.is_space c = false).
Proof.
  split; [| split].
  - destruct (lstrip_split s) as (ws1 & H1 & Hws1).
    destruct (rstrip_split (PyStr.lstrip s)) as (ws2 & H2 & Hws2).
    exists ws1, ws2. unfold PyStr.strip. rewrite <- H2. auto.
  - intros c t H. unfold PyStr.strip in H.
    destruct (lstrip_head s) as [E | (d & u & E & Hd)]; rewrite E in H.
    + discriminate.
    + destruct (rstrip_head d u Hd) as [v Hv]. rewrite Hv in H.
      inversion H; subst. exact Hd.
  - intros t c H. unfold PyStr.strip, PyStr.rstrip in H.
    apply (f_equal PyStr.rev) in H.
    rewrite rev_involutive, rev_app in H. simpl in H.
    destruct (lstrip_head (PyStr.rev (PyStr.lstrip s)))
      as [E | (d & u & E & Hd)]; rewrite E in H.
    + discriminate.
    + inversion H; subst. exact Hd.
Qed.

(** Where no sharp s and no micro sign occurs, case folding is
    lowercasing. *)
Lemma casefold_lower (s : string) :
  PyStr.all_chars folds_as_lower s = true ->
  casefold s = Some (PyStr.lower s).
Proof.
  induction s as [|c t IH]; simpl; [reflexivity |].
  intros H. apply andb_true_iff in H as [Hc Ht]. rewrite (IH Ht).
  unfold folds_as_lower in Hc. apply andb_true_iff in Hc as [H1 H2].
  unfold casefold_char.
  destruct (PyStr.code c =? 223); [discriminate |].
  destruct (PyStr.code c =? 181); [discriminate |]. reflexivity.
Qed.

Lemma lower_not_upper (s : string) :
  PyStr.all_chars (fun c => negb (PyStr.is_upper c)) s = true ->
  PyStr.lower s = s.
Proof.
  induction s as [|c t IH]; simpl; [reflexivity |].
  intros H. apply andb_true_iff in H as [Hc Ht]. rewrite (IH Ht).
  unfold PyStr.lower_char. destruct (PyStr.is_upper c); [discriminate |].
  reflexivity.
Qed.

End MoreStringFacts.

(** ** The Judge *)

(** C1 (amended). The Judge passes exactly when the expected answer,
    lowercased, is a contiguous substring of the actual answer, lowercased;
    nothing but the lowercasing is applied to either string.  Lowercasing
    turns the capital letters into their small letters and leaves every
    other character as it is; it is case folding wherever no sharp s and
    no micro sign occurs, and it leaves the sharp s alone, which therefore
    does not match [SS]. *)
Theorem judge_passed_iff_substring :
  (forall expected actual : string,
     passed expected actual = true
     <-> exists pre post,
           PyStr.lower actual = pre +:+ PyStr.lower expected +:+ post)
  /\ PyStr.lower "ABCDEFGHIJKLMNOPQRSTUVWXYZ" = "abcdefghijklmnopqrstuvwxyz"
  /\ PyStr.lower
       (String (ascii_of_nat 192) (String (ascii_of_nat 222) EmptyString))
     = String (ascii_of_nat 224) (String (ascii_of_nat 254) EmptyString)
  /\ (forall s : string,
        PyStr.all_chars (fun c => negb (PyStr.is_upper c)) s = true ->
        PyStr.lower s = s)
  /\ (forall expected actual : string,
        PyStr.all_chars folds_as_lower expected = true ->
        PyStr.all_chars folds_as_lower actual = true ->
        passed_casefolded expected actual = Some (passed expected actual))
  /\ PyStr.lower sharp_s = sharp_s
  /\ passed "SS" sharp_s = false.
Proof.
  split; [intros expected actual; unfold passed; apply contains_iff |].
  split; [reflexivity |]. split; [reflexivity |].
  split; [exact lower_not_upper |].
  split; [| split; reflexivity].
  intros expected actual He Ha. unfold passed_casefolded, passed.
  now rewrite (casefold_lower _ He), (casefold_lower _ Ha).
Qed.

Lemma judge_passed_iff_substring_witness :
  passed "A.TXT" "The files are a.txt and b.txt." = true
  /\ PyStr.lower "the answer is 4." = "the answer is 4."
  /\ passed_casefolded "A.TXT" "The files are a.txt and b.txt." = Some true.
Proof.
  destruct judge_passed_iff_substring as (Hiff & _ & _ & Hlow & Hfold & _).
  assert (Hpass : passed "A.TXT" "The files are a.txt and b.txt." = true).
  { apply Hiff. exists "the files are ", " and b.txt.". reflexivity. }
  split; [exact Hpass |]. split.
  - apply Hlow. reflexivity.
  - rewrite <- Hpass. apply Hfold; reflexivity.
Defined.

(** C1, as stated, fails: the sharp s and [SS] both fold to [ss], so the
    case-folded expected answer occurs in the case-folded actual answer,
    yet the Judge, which lowercases, does not pass. *)
Lemma judge_case_folding_counterexample :
  casefold "SS" = Some "ss"
  /\ casefold sharp_s = Some "ss"
  /\ passed_casefolded "SS" sharp_s = Some true
  /\ passed "SS" sharp_s = false.
Proof. repeat split; reflexivity. Qed.

Example judge_embedded_phrase :
  passed "A.TXT" "The files are a.txt and b.txt." = true.
Proof. reflexivity. Qed.

Example judge_inner_space_kept : passed "a  b" "a b" = false.
Proof. reflexivity. Qed.

Example judge_no_trim : passed " 4" "4" = false.
Proof. reflexivity. Qed.

(** C10. An empty expected answer passes against every actual answer, and
    loading an answer element whose text is whitespace only yields that
    empty expected answer. *)
Theorem empty_expected_always_passes :
  (forall actual : string, passed EmptyString actual = true)
  /\ (forall q ws : string,
        PyStr.all_chars PyStr.is_space ws = true ->
        load_evaluation_file
          (Document
             (Elem "evaluation" None None
                [Elem "qa_pair" None None
                   [Elem "question" (Some q) None [];
                    Elem "answer" (Some ws) None []]]))
        = Returned [{| question := PyStr.strip q; answer := EmptyString |}]).
Proof.
  split.
  - intros actual. unfold passed. simpl. apply contains_empty.
  - intros q ws H. unfold load_evaluation_file, parse_pair. simpl.
    rewrite (strip_all_space ws H). reflexivity.
Qed.

Lemma empty_expected_always_passes_witness :
  passed EmptyString "anything at all" = true
  /\ load_evaluation_file
       (Document
          (Elem "evaluation" None None
             [Elem "qa_pair" None None
                [Elem "question" (Some "2+2?") None [];
                 Elem "answer" (Some "   ") None []]]))
     = Returned [{| question := "2+2?"; answer := EmptyString |}].
Proof.
  destruct empty_expected_always_passes as [Hpass Hload].
  split.
  - apply Hpass.
  - apply (Hload "2+2?" "   "). reflexivity.
Defined.

(** ** The update prompt *)

Lemma accepts_iff (typed : string) :
  accepts typed = true <-> typed = "y" \/ typed = "Y".
Proof.
  unfold accepts. rewrite String.eqb_eq. split.
  - destruct typed as [|c rest]; simpl; [discriminate |].
    intros H. inversion H as [[Hc Hrest]].
    apply lower_empty_inv in Hrest. subst rest.
    destruct (lower_char_y c Hc); subst; auto.
  - intros [-> | ->]; reflexivity.
Qed.

(** ** Sequencing *)

Section ProgFacts.

Context {A B : Type}.

Lemma bind_returned (m : Prog A) (k : A -> Prog B) (h evs : list event) (a : A) :
  m h = (evs, Returned a) ->
  bind m k h = (evs ++ fst (k a (h ++ evs)), snd (k a (h ++ evs))).
Proof. intros H. unfold bind. rewrite H. now destruct (k a (h ++ evs)). Qed.

Lemma bind_raised (m : Prog A) (k : A -> Prog B) (h evs : list event) (e : string) :
  m h = (evs, Raised e) -> bind m k h = (evs, Raised e).
Proof. intros H. unfold bind. now rewrite H. Qed.

End ProgFacts.

(** The Judge step when it prompts: update mode and a failed Judge. *)
Lemma judge_and_record_prompted
    (env : Env) (i : nat) (pair : QAPair) (final_answer : string)
    (st : LoopState) (h : list event) (typed : string) :
  passed (answer pair) final_answer = false ->
  console_input env h (update_prompt final_answer) = Returned typed ->
  judge_and_record env true i pair final_answer st h
  = ([EvInput (update_prompt final_answer)],
     Returned
       (if accepts typed
        then accept_update i pair final_answer st
        else append_result pair final_answer false st)).
Proof.
  intros Hfail Hin. unfold judge_and_record. rewrite Hfail. simpl.
  unfold bind, ask. rewrite Hin. destruct (accepts typed); reflexivity.
Qed.

(** C8. Once the Judge has failed in update mode, the typed line decides
    alone: the update is applied when the line, lowercased, equals [y],
    that is when the line is [y] or [Y]; every other line, among them
    [yes] and the empty line, declines. *)
Theorem update_decided_by_lowercase_y
    (env : Env) (i : nat) (pair : QAPair) (final_answer : string)
    (st : LoopState) (h : list event) (typed : string) :
  passed (answer pair) final_answer = false ->
  console_input env h (update_prompt final_answer) = Returned typed ->
  judge_and_record env true i pair final_answer st h
  = ([EvInput (update_prompt final_answer)],
     Returned
       (if String.eqb (PyStr.lower typed) "y"
        then accept_update i pair final_answer st
        else append_result pair final_answer false st))
  /\ (String.eqb (PyStr.lower typed) "y" = true
      <-> typed = "y" \/ typed = "Y")
  /\ accepts "yes" = false
  /\ accepts EmptyString = false.
Proof.
  intros Hfail Hin. split; [| split; [apply accepts_iff | split; reflexivity]].
  exact (judge_and_record_prompted env i pair final_answer st h typed Hfail Hin).
Qed.

Lemma update_decided_by_lowercase_y_witness :
  judge_and_record (Scenario.listing "Only b.txt exists." "Y") true 0
    (mkPair "list files" "a.txt") "Only b.txt exists."
    (mkState [mkPair "list files" "a.txt"] [] false) []
  = ([EvInput (update_prompt "Only b.txt exists.")],
     Returned
       (mkState [mkPair "list files" "Only b.txt exists."]
          [mkResult "list files" "Only b.txt exists." "Only b.txt exists." true]
          true)).
Proof.
  destruct (update_decided_by_lowercase_y
              (Scenario.listing "Only b.txt exists." "Y") 0
              (mkPair "list files" "a.txt") "Only b.txt exists."
              (mkState [mkPair "list files" "a.txt"] [] false) [] "Y"
              eq_refl eq_refl) as [H _].
  exact H.
Defined.

(** ** The agent turn *)

Section AgentTurnFacts.

Variable env : Env.

Lemma count_model_app (l1 l2 : list event) :
  count_model (l1 ++ l2) = count_model l1 + count_model l2.
Proof. unfold count_model. now rewrite List.filter_app, length_app. Qed.

Lemma count_model_tool_events (calls : list (string * string)) :
  count_model (map tool_event calls) = 0.
Proof. induction calls as [|c calls IH]; [reflexivity | exact IH]. Qed.

Lemma tool_calls_app (l1 l2 : list event) :
  tool_calls (l1 ++ l2) = tool_calls l1 ++ tool_calls l2.
Proof.
  induction l1 as [|e l1 IH]; [reflexivity |].
  destruct e; simpl; rewrite ?IH; reflexivity.
Qed.

Lemma tool_calls_tool_events (calls : list (string * string)) :
  tool_calls (map tool_event calls) = calls.
Proof.
  induction calls as [|[name input] calls IH]; [reflexivity |].
  simpl. now rewrite IH.
Qed.

(** The tool loop calls the requested tools in request order and stops at
    the first call that raises. *)
Lemma exec_tools_calls (blocks : list Block) (h : list event) :
  exists calls,
    fst (exec_tools env blocks h) = map tool_event calls
    /\ calls `prefix_of` tool_requests blocks
    /\ (forall trs, snd (exec_tools env blocks h) = Returned trs ->
        calls = tool_requests blocks).
Proof.
  revert h. induction blocks as [|b blocks IH]; intros h.
  - exists []. repeat split; simpl; auto.
  - destruct b as [t | id name input | ty]; simpl; try apply IH.
    unfold bind, call_tool, ret.
    destruct (session_call_tool env h name input) as [result | e].
    + destruct (IH (h ++ [EvTool name input])) as (calls & Hev & Hpre & Hall).
      destruct (exec_tools env blocks (h ++ [EvTool name input]))
        as [evs [trs | e]]; simpl in *.
      * exists ((name, input) :: calls). subst evs.
        rewrite app_nil_r. split; [reflexivity | split].
        -- now apply prefix_cons.
        -- intros trs0 _. f_equal. now apply (Hall trs).
      * exists ((name, input) :: calls). subst evs.
        split; [reflexivity | split].
        -- now apply prefix_cons.
        -- intros trs; discriminate.
    + exists [(name, input)]. split; [reflexivity | split].
      * apply prefix_cons, prefix_nil.
      * intros trs; discriminate.
Qed.

(** How a turn goes, by the outcome of the first call: it raises; it
    returns with the stop reason [tool_use] and the tool loop raises, or
    the tool loop returns and the second call ends the turn; it returns
    with another stop reason. *)
Lemma agent_turn_shape (tools : list ToolDescriptor) (question : string)
    (h : list event) :
  let ev1 := EvModel [user_text question] tools in
  match messages_create env h [user_text question] tools with
  | Raised e => agent_turn env tools question h = ([ev1], Raised e)
  | Returned r =>
      if String.eqb (stop_reason r) "tool_use" then
        exists calls,
          calls `prefix_of` tool_requests (resp_content r)
          /\ ((exists e,
                 (exec_tools env (resp_content r) (h ++ [ev1])).2 = Raised e
                 /\ agent_turn env tools question h
                    = (ev1 :: map tool_event calls, Raised e))
              \/ (exists trs messages out,
                    (exec_tools env (resp_content r) (h ++ [ev1])).2
                    = Returned trs
                    /\ calls = tool_requests (resp_content r)
                    /\ agent_turn env tools question h
                       = (ev1 :: map tool_event calls ++ [EvModel messages tools],
                          out)))
      else
        agent_turn env tools question h
        = ([ev1], Returned (PyStr.strip (text_of (resp_content r))))
  end.
Proof.
  intros ev1. unfold agent_turn, bind, call_model, ret. fold ev1.
  destruct (messages_create env h [user_text question] tools) as [r | e];
    [| reflexivity].
  destruct (String.eqb (stop_reason r) "tool_use"); [| reflexivity].
  destruct (exec_tools_calls (resp_content r) (h ++ [ev1]))
    as (calls & Hev & Hpre & Hall).
  exists calls. split; [exact Hpre |].
  destruct (exec_tools env (resp_content r) (h ++ [ev1])) as [evs [trs | e]];
    simpl in Hev, Hall; subst evs.
  - right. exists trs.
    match goal with
    | |- context [messages_create env ?hh ?mm tools] =>
        destruct (messages_create env hh mm tools) as [r2 | e2];
        exists mm
    end.
    + eexists. split; [reflexivity |]. split; [now apply (Hall trs) |].
      simpl. rewrite ?app_nil_r. reflexivity.
    + eexists. split; [reflexivity |]. split; [now apply (Hall trs) |].
      reflexivity.
  - left. exists e. split; reflexivity.
Qed.

End AgentTurnFacts.

(** The bounds on the calls of a turn. *)
Lemma agent_turn_call_bounds_core
    (env : Env) (tools : list ToolDescriptor) (question : string)
    (h : list event) :
  let turn := agent_turn env tools question h in
  let ev1 := EvModel [user_text question] tools in
  let first := messages_create env h [user_text question] tools in
  count_model turn.1 <= 2
  /\ (count_model turn.1 = 2 ->
      exists r, first = Returned r /\ stop_reason r = "tool_use")
  /\ (forall r, first = Returned r -> stop_reason r = "tool_use" ->
      tool_calls turn.1 `prefix_of` tool_requests (resp_content r))
  /\ (forall r trs, first = Returned r -> stop_reason r = "tool_use" ->
      (exec_tools env (resp_content r) (h ++ [ev1])).2 = Returned trs ->
      tool_calls turn.1 = tool_requests (resp_content r)
      /\ count_model turn.1 = 2)
  /\ (forall r, first = Returned r -> stop_reason r <> "tool_use" ->
      tool_calls turn.1 = [] /\ count_model turn.1 = 1)
  /\ (forall e, first = Raised e ->
      tool_calls turn.1 = [] /\ count_model turn.1 = 1)
  /\ (count_model turn.1 = 2 ->
      exists pre messages, turn.1 = pre ++ [EvModel messages tools]).
Proof.
  intros turn ev1 first.
  pose proof (agent_turn_shape env tools question h) as Hshape.
  simpl in Hshape. fold ev1 first turn in Hshape.
  destruct first as [r | e] eqn:Hfirst.
  - destruct (String.eqb (stop_reason r) "tool_use") eqn:Hstop.
    + apply String.eqb_eq in Hstop.
      destruct Hshape
        as (calls & Hpre
            & [(e & Hexec & Hturn) | (trs0 & ms & out & Hexec & Hc & Hturn)]);
        rewrite Hturn; cbn [fst].
      * assert (Hcount : count_model (ev1 :: map tool_event calls) = 1).
        { change (ev1 :: map tool_event calls)
            with ([ev1] ++ map tool_event calls).
          rewrite count_model_app, count_model_tool_events. reflexivity. }
        assert (Hcalls : tool_calls (ev1 :: map tool_event calls) = calls)
          by apply tool_calls_tool_events.
        rewrite Hcount, Hcalls.
        split; [lia |]. split; [intros; lia |].
        split; [intros r0 Hr0 _; inversion Hr0; subst; exact Hpre |].
        split; [intros r0 trs Hr0 _ Hret; inversion Hr0; subst; congruence |].
        split; [intros r0 Hr0 Hne; inversion Hr0; subst; contradiction |].
        split; [intros e0; discriminate |].
        intros; lia.
      * assert (Hcount :
          count_model (ev1 :: map tool_event calls ++ [EvModel ms tools]) = 2).
        { change (ev1 :: map tool_event calls ++ [EvModel ms tools])
            with ([ev1] ++ map tool_event calls ++ [EvModel ms tools]).
          rewrite !count_model_app, count_model_tool_events. reflexivity. }
        assert (Hcalls :
          tool_calls (ev1 :: map tool_event calls ++ [EvModel ms tools])
          = calls).
        { simpl. rewrite tool_calls_app, tool_calls_tool_events.
          simpl. apply app_nil_r. }
        rewrite Hcount, Hcalls.
        split; [lia |]. split; [intros _; exists r; auto |].
        split; [intros r0 Hr0 _; inversion Hr0; subst; exact Hpre |].
        split; [intros r0 trs Hr0 _ _; inversion Hr0; subst; auto |].
        split; [intros r0 Hr0 Hne; inversion Hr0; subst; contradiction |].
        split; [intros e0; discriminate |].
        intros _. exists (ev1 :: map tool_event calls), ms. reflexivity.
    + assert (Hne : stop_reason r <> "tool_use").
      { intros Heq. apply String.eqb_eq in Heq. congruence. }
      rewrite Hshape. simpl. unfold count_model. simpl.
      split; [lia |]. split; [intros; lia |].
      split; [intros r0 Hr0 Hs; inversion Hr0; subst; contradiction |].
      split; [intros r0 trs Hr0 Hs; inversion Hr0; subst; contradiction |].
      split; [auto |]. split; [intros e0; discriminate |]. intros; lia.
  - rewrite Hshape. simpl. unfold count_model. simpl.
    split; [lia |]. split; [intros; lia |].
    split; [intros r0; discriminate |].
    split; [intros r0 trs; discriminate |].
    split; [intros r0; discriminate |]. split; [auto |]. intros; lia.
Qed.

(** The tool loop calls exactly the requests that are served until a
    call raises. *)
Lemma exec_tools_served (env : Env) (blocks : list Block) (h : list event) :
  (exec_tools env blocks h).1
  = map tool_event (served_requests env h (tool_requests blocks)).
Proof.
  revert h. induction blocks as [|b blocks IH]; intros h; [reflexivity |].
  destruct b as [t | id name input | ty]; simpl; try apply IH.
  unfold bind, call_tool, ret.
  destruct (session_call_tool env h name input) as [result | e];
    [| reflexivity].
  specialize (IH (h ++ [EvTool name input])).
  destruct (exec_tools env blocks (h ++ [EvTool name input]))
    as [evs [trs | e]]; simpl in *; rewrite ?app_nil_r; now rewrite IH.
Qed.

(** The tool calls of a turn whose first response stopped with
    [tool_use] are those of the tool loop, and a tool loop that raises
    ends the turn with its exception. *)
Lemma agent_turn_tool_loop (env : Env) (tools : list ToolDescriptor)
    (question : string) (h : list event) (r : Response) :
  let ev1 := EvModel [user_text question] tools in
  messages_create env h [user_text question] tools = Returned r ->
  stop_reason r = "tool_use" ->
  tool_calls (agent_turn env tools question h).1
  = tool_calls (exec_tools env (resp_content r) (h ++ [ev1])).1
  /\ (forall e,
        (exec_tools env (resp_content r) (h ++ [ev1])).2 = Raised e ->
        agent_turn env tools question h
        = (ev1 :: (exec_tools env (resp_content r) (h ++ [ev1])).1, Raised e)).
Proof.
  intros ev1 Hfirst Hstop.
  unfold agent_turn, bind, call_model, ret. fold ev1.
  rewrite Hfirst, (proj2 (String.eqb_eq _ _) Hstop).
  destruct (exec_tools env (resp_content r) (h ++ [ev1])) as [evs [trs | e]].
  - split; [| discriminate].
    match goal with
    | |- context [messages_create env ?hh ?mm tools] =>
        destruct (messages_create env hh mm tools)
    end; simpl; rewrite ?app_nil_r, tool_calls_app; simpl;
      now rewrite app_nil_r.
  - split; [reflexivity |]. simpl. intros e0 He0. now inversion He0.
Qed.

(** C2 (amended). A turn issues at most two model-service calls, the
    second only when the first response stopped with [tool_use].  The
    tool-server calls of the turn are made for the requests of the first
    response, in request order and at most one per request: when the stop
    reason is [tool_use], one for every request up to and including the
    first whose call raises, so for all of them when no call raises; none
    when the stop reason is something else or the first model-service
    call raises.  A tool call that raises ends the turn without a second
    model-service call.  The second model-service call is the last
    request of the turn, whatever its response holds. *)
Theorem agent_turn_call_bounds
    (env : Env) (tools : list ToolDescriptor) (question : string)
    (h : list event) :
  let turn := agent_turn env tools question h in
  let ev1 := EvModel [user_text question] tools in
  let first := messages_create env h [user_text question] tools in
  count_model turn.1 <= 2
  /\ (count_model turn.1 = 2 ->
      exists r, first = Returned r /\ stop_reason r = "tool_use")
  /\ (forall r, first = Returned r -> stop_reason r = "tool_use" ->
      tool_calls turn.1 `prefix_of` tool_requests (resp_content r))
  /\ (forall r trs, first = Returned r -> stop_reason r = "tool_use" ->
      (exec_tools env (resp_content r) (h ++ [ev1])).2 = Returned trs ->
      tool_calls turn.1 = tool_requests (resp_content r)
      /\ count_model turn.1 = 2)
  /\ (forall r, first = Returned r -> stop_reason r <> "tool_use" ->
      tool_calls turn.1 = [] /\ count_model turn.1 = 1)
  /\ (forall e, first = Raised e ->
      tool_calls turn.1 = [] /\ count_model turn.1 = 1)
  /\ (count_model turn.1 = 2 ->
      exists pre messages, turn.1 = pre ++ [EvModel messages tools])
  /\ (forall r, first = Returned r -> stop_reason r = "tool_use" ->
      tool_calls turn.1
      = served_requests env (h ++ [ev1]) (tool_requests (resp_content r)))
  /\ (forall r e, first = Returned r -> stop_reason r = "tool_use" ->
      (exec_tools env (resp_content r) (h ++ [ev1])).2 = Raised e ->
      count_model turn.1 = 1 /\ turn.2 = Raised e).
Proof.
  intros turn ev1 first.
  destruct (agent_turn_call_bounds_core env tools question h)
    as (H1 & H2 & H3 & H4 & H5 & H6 & H7).
  repeat (split; [assumption |]). split.
  - intros r Hfirst Hstop.
    destruct (agent_turn_tool_loop env tools question h r Hfirst Hstop)
      as [Hcalls _].
    unfold turn. rewrite Hcalls, exec_tools_served.
    apply tool_calls_tool_events.
  - intros r e Hfirst Hstop Hexec.
    destruct (agent_turn_tool_loop env tools question h r Hfirst Hstop)
      as [_ Hraise].
    unfold turn. rewrite (Hraise e Hexec). split; [| reflexivity].
    cbn [fst]. rewrite exec_tools_served.
    change (EvModel [user_text question] tools :: ?l)
      with ([EvModel [user_text question] tools] ++ l).
    rewrite count_model_app, count_model_tool_events. reflexivity.
Qed.

Lemma agent_turn_call_bounds_witness :
  (let turn :=
     agent_turn (Scenario.listing "The files are a.txt and b.txt." "n")
       Scenario.tools "list files" [] in
   tool_calls turn.1 = [("list_dir", "{}")] /\ count_model turn.1 = 2)
  /\ (let turn := agent_turn Scenario.cut_off Scenario.tools "list files" [] in
      tool_calls turn.1 = [] /\ count_model turn.1 = 1)
  /\ (let turn :=
        agent_turn Scenario.failing_first_of_two Scenario.tools "list files"
          [] in
      tool_calls turn.1 = [("list_dir", "{}")]
      /\ count_model turn.1 = 1
      /\ turn.2 = Raised "tool execution failed").
Proof.
  split; [| split].
  3: { destruct (agent_turn_call_bounds Scenario.failing_first_of_two
                   Scenario.tools "list files" [])
         as (_ & _ & _ & _ & _ & _ & _ & Hserved & Hraise).
       split.
       - exact (Hserved Scenario.two_requests eq_refl eq_refl).
       - exact (Hraise Scenario.two_requests "tool execution failed"
                  eq_refl eq_refl eq_refl). }
  - destruct (agent_turn_call_bounds
                (Scenario.listing "The files are a.txt and b.txt." "n")
                Scenario.tools "list files" [])
      as (_ & _ & _ & Hall & _).
    apply (Hall Scenario.list_dir_request
             [mkToolResult "toolu_1" "a.txt, b.txt"]);
      reflexivity.
  - destruct (agent_turn_call_bounds Scenario.cut_off Scenario.tools
                "list files" [])
      as (_ & _ & _ & _ & Hnone & _).
    apply (Hnone Scenario.cut_request); [reflexivity | discriminate].
Defined.

(** C2, as stated, fails: with two requests in a first response that
    stopped with [tool_use], a first tool call that raises leaves the
    second request without any call; and a first response cut at the token
    limit holds a request for which no call is made. *)
Lemma one_call_per_request_counterexample :
  (let turn :=
     agent_turn Scenario.failing_first_of_two Scenario.tools "list files" [] in
   messages_create Scenario.failing_first_of_two [] [user_text "list files"]
     Scenario.tools
   = Returned Scenario.two_requests
   /\ stop_reason Scenario.two_requests = "tool_use"
   /\ tool_requests (resp_content Scenario.two_requests)
      = [("list_dir", "{}"); ("list_dir", "{}")]
   /\ tool_calls turn.1 = [("list_dir", "{}")]
   /\ length (tool_calls turn.1)
      <> length (tool_requests (resp_content Scenario.two_requests)))
  /\ (let turn := agent_turn Scenario.cut_off Scenario.tools "list files" [] in
      messages_create Scenario.cut_off [] [user_text "list files"]
        Scenario.tools
      = Returned Scenario.cut_request
      /\ tool_requests (resp_content Scenario.cut_request)
         = [("list_dir", "{}")]
      /\ tool_calls turn.1 = []).
Proof.
  split.
  - cbv zeta. repeat split; try reflexivity. vm_compute. discriminate.
  - cbv zeta. repeat split; reflexivity.
Qed.

(** The two-turn cap on the scenario whose second response asks for a
    tool again: one tool call, two model calls. *)
Example second_request_ignored :
  let turn := agent_turn Scenario.asks_again Scenario.tools "list files" [] in
  count_model turn.1 = 2
  /\ tool_calls turn.1 = [("list_dir", "{}")]
  /\ turn.2 = Returned EmptyString.
Proof. cbv zeta. repeat split; reflexivity. Qed.

(** The characters that [strip] removes at the ends. *)
Lemma is_space_table (c : ascii) :
  PyStr.is_space c = true
  <-> In (PyStr.code c) [9; 10; 11; 12; 13; 28; 29; 30; 31; 32; 133; 160].
Proof.
  destruct c as [[] [] [] [] [] [] [] []]; vm_compute; split; intros H;
    solve [ reflexivity | discriminate H | tauto
          | repeat (destruct H as [H | H]; [discriminate H |]); destruct H ].
Qed.

(** C7. When the first response stops with anything but [tool_use], the
    turn consists of that one model-service call, no tool-server call is
    made, and the Judge step receives the text of the response's text
    blocks, concatenated and trimmed: the answer is that text without the
    whitespace at its two ends, and it neither starts nor ends with a
    whitespace character (TAB, LF, VT, FF, CR, FS, GS, RS, US, SPACE, NEL
    or NBSP). *)
Theorem text_answer_without_tools
    (env : Env) (update : bool) (tools : list ToolDescriptor) (i : nat)
    (pair : QAPair) (st : LoopState) (h : list event) (r : Response) :
  messages_create env h [user_text (question pair)] tools = Returned r ->
  stop_reason r <> "tool_use" ->
  let ev1 := EvModel [user_text (question pair)] tools in
  let final_answer := PyStr.strip (text_of (resp_content r)) in
  agent_turn env tools (question pair) h = ([ev1], Returned final_answer)
  /\ tool_calls (agent_turn env tools (question pair) h).1 = []
  /\ eval_pair env update tools i pair st h
     = (ev1 :: (judge_and_record env update i pair final_answer st (h ++ [ev1])).1,
        (judge_and_record env update i pair final_answer st (h ++ [ev1])).2)
  /\ (exists ws1 ws2,
        text_of (resp_content r) = ws1 +:+ final_answer +:+ ws2
        /\ PyStr.all_chars PyStr.is_space ws1 = true
        /\ PyStr.all_chars PyStr.is_space ws2 = true)
  /\ (forall c t, final_answer = String c t -> PyStr.is_space c = false)
  /\ (forall t c,
        final_answer = t +:+ String c EmptyString ->
        PyStr.is_space c = false)
  /\ (forall c,
        PyStr.is_space c = true
        <-> In (PyStr.code c) [9; 10; 11; 12; 13; 28; 29; 30; 31; 32; 133; 160]).
Proof.
  intros Hfirst Hstop ev1 final_answer.
  destruct (strip_spec (text_of (resp_content r))) as (Hsplit & Hhead & Hlast).
  fold final_answer in Hsplit, Hhead, Hlast.
  assert (Hturn :
    agent_turn env tools (question pair) h = ([ev1], Returned final_answer)).
  { pose proof (agent_turn_shape env tools (question pair) h) as Hshape.
    simpl in Hshape. rewrite Hfirst in Hshape.
    destruct (String.eqb (stop_reason r) "tool_use") eqn:E.
    - apply String.eqb_eq in E. contradiction.
    - exact Hshape. }
  split; [exact Hturn |]. split; [now rewrite Hturn |].
  split.
  { unfold eval_pair. rewrite (bind_returned _ _ _ _ _ Hturn). reflexivity. }
  split; [exact Hsplit |]. split; [exact Hhead |]. split; [exact Hlast |].
  exact is_space_table.
Qed.

Lemma text_answer_without_tools_witness :
  agent_turn Scenario.arithmetic Scenario.tools "2+2?" []
  = ([EvModel [user_text "2+2?"] Scenario.tools], Returned "The answer is 4.")
  /\ (run_evaluation Scenario.arithmetic false).2
     = Completed
         (mkState [mkPair "2+2?" "4"]
            [mkResult "2+2?" "4" "The answer is 4." true] false)
         None
  /\ agent_turn
       (Scenario.scripted (saved_file [mkPair "2+2?" "4"])
          (Scenario.text_model
             (String (ascii_of_nat 9) "  The answer is 4. "
              +:+ String PyStr.LF EmptyString))
          Scenario.no_tool (Returned "n"))
       Scenario.tools "2+2?" []
     = ([EvModel [user_text "2+2?"] Scenario.tools],
        Returned "The answer is 4.").
Proof.
  split; [| split].
  - apply (text_answer_without_tools Scenario.arithmetic false Scenario.tools 0
             (mkPair "2+2?" "4") (mkState [mkPair "2+2?" "4"] [] false) []
             (Scenario.text_response "The answer is 4.")).
    + reflexivity.
    + discriminate.
  - reflexivity.
  - refine (proj1 (text_answer_without_tools
                     (Scenario.scripted (saved_file [mkPair "2+2?" "4"])
                        (Scenario.text_model
                           (String (ascii_of_nat 9) "  The answer is 4. "
                            +:+ String PyStr.LF EmptyString))
                        Scenario.no_tool (Returned "n"))
                     false Scenario.tools 0
                     (mkPair "2+2?" "4") (mkState [mkPair "2+2?" "4"] [] false)
                     []
                     (Scenario.text_response
                        (String (ascii_of_nat 9) "  The answer is 4. "
                         +:+ String PyStr.LF EmptyString))
                     _ _)).
    + reflexivity.
    + discriminate.
Defined.

(** ** The update controller *)

(** C4. In update mode, when the Judge fails on the pair at index [i] and
    the operator answers the prompt: a decline leaves the dataset and
    [updates_made] as they were and records the pair as failed; an accept
    makes the produced answer the pair's answer, records the pair as
    passed and sets [updates_made]. *)
Theorem update_mode_decline_accept
    (env : Env) (tools : list ToolDescriptor) (i : nat) (pair : QAPair)
    (st : LoopState) (h evs : list event) (final_answer typed : string) :
  qa_pairs st !! i = Some pair ->
  agent_turn env tools (question pair) h = (evs, Returned final_answer) ->
  passed (answer pair) final_answer = false ->
  console_input env (h ++ evs) (update_prompt final_answer) = Returned typed ->
  exists st',
    eval_pair env true tools i pair st h
    = (evs ++ [EvInput (update_prompt final_answer)], Returned st')
    /\ (accepts typed = false ->
        qa_pairs st' = qa_pairs st
        /\ qa_pairs st' !! i = Some pair
        /\ updates_made st' = updates_made st
        /\ results st'
           = results st
             ++ [mkResult (question pair) (answer pair) final_answer false])
    /\ (accepts typed = true ->
        qa_pairs st' !! i = Some (mkPair (question pair) final_answer)
        /\ (forall j, j <> i -> qa_pairs st' !! j = qa_pairs st !! j)
        /\ updates_made st' = true
        /\ results st'
           = results st
             ++ [mkResult (question pair) final_answer final_answer true]).
Proof.
  intros Hi Hturn Hfail Hin.
  exists (if accepts typed
          then accept_update i pair final_answer st
          else append_result pair final_answer false st).
  split.
  - unfold eval_pair. rewrite (bind_returned _ _ _ _ _ Hturn).
    rewrite (judge_and_record_prompted env i pair final_answer st (h ++ evs)
               typed Hfail Hin).
    reflexivity.
  - split; intros Hacc; rewrite Hacc.
    + repeat split; [exact Hi].
    + unfold accept_update; simpl. repeat split.
      * apply list_lookup_insert_eq. now apply lookup_lt_Some in Hi.
      * intros j Hj. apply list_lookup_insert_ne. congruence.
Qed.

Lemma update_mode_decline_accept_witness :
  (exists st',
     eval_pair (Scenario.listing "Only b.txt exists." "n") true Scenario.tools 0
       (mkPair "list files" "a.txt")
       (mkState [mkPair "list files" "a.txt"] [] false) []
     = ((agent_turn (Scenario.listing "Only b.txt exists." "n") Scenario.tools
           "list files" []).1
        ++ [EvInput (update_prompt "Only b.txt exists.")],
        Returned st')
     /\ qa_pairs st' = [mkPair "list files" "a.txt"]
     /\ updates_made st' = false
     /\ results st'
        = [mkResult "list files" "a.txt" "Only b.txt exists." false])
  /\ (exists st',
        eval_pair (Scenario.listing "Only b.txt exists." "y") true
          Scenario.tools 0
          (mkPair "list files" "a.txt")
          (mkState [mkPair "list files" "a.txt"] [] false) []
        = ((agent_turn (Scenario.listing "Only b.txt exists." "y")
              Scenario.tools "list files" []).1
           ++ [EvInput (update_prompt "Only b.txt exists.")],
           Returned st')
        /\ qa_pairs st' !! 0 = Some (mkPair "list files" "Only b.txt exists.")
        /\ updates_made st' = true
        /\ results st'
           = [mkResult "list files" "Only b.txt exists." "Only b.txt exists."
                true]).
Proof.
  split.
  - destruct (update_mode_decline_accept
                (Scenario.listing "Only b.txt exists." "n") Scenario.tools 0
                (mkPair "list files" "a.txt")
                (mkState [mkPair "list files" "a.txt"] [] false) []
                (agent_turn (Scenario.listing "Only b.txt exists." "n")
                   Scenario.tools "list files" []).1
                "Only b.txt exists." "n"
                eq_refl eq_refl eq_refl eq_refl)
      as (st' & Hrun & Hdecline & _).
    exists st'. split; [exact Hrun |].
    destruct (Hdecline eq_refl) as (Hq & _ & Hu & Hr). auto.
  - destruct (update_mode_decline_accept
                (Scenario.listing "Only b.txt exists." "y") Scenario.tools 0
                (mkPair "list files" "a.txt")
                (mkState [mkPair "list files" "a.txt"] [] false) []
                (agent_turn (Scenario.listing "Only b.txt exists." "y")
                   Scenario.tools "list files" []).1
                "Only b.txt exists." "y"
                eq_refl eq_refl eq_refl eq_refl)
      as (st' & Hrun & _ & Haccept).
    exists st'. split; [exact Hrun |].
    destruct (Haccept eq_refl) as (Hq & _ & Hu & Hr). auto.
Defined.

(** ** The loop *)

Section LoopFacts.

Variable env : Env.
Variable update : bool.
Variable tools : list ToolDescriptor.

Lemma forallb_tool_events (calls : list (string * string)) :
  forallb is_loop_event (map tool_event calls) = true.
Proof. induction calls as [|c calls IH]; [reflexivity | exact IH]. Qed.

Lemma agent_turn_events (question : string) (h : list event) :
  forallb is_loop_event (agent_turn env tools question h).1 = true.
Proof.
  pose proof (agent_turn_shape env tools question h) as Hshape.
  simpl in Hshape.
  destruct (messages_create env h [user_text question] tools) as [r | e].
  - destruct (String.eqb (stop_reason r) "tool_use").
    + destruct Hshape
        as (calls & _ & [(e & _ & Ht) | (trs & ms & out & _ & _ & Ht)]);
        rewrite Ht; simpl.
      * apply forallb_tool_events.
      * rewrite forallb_app, forallb_tool_events. reflexivity.
    + now rewrite Hshape.
  - now rewrite Hshape.
Qed.

Lemma judge_and_record_events (i : nat) (pair : QAPair)
    (final_answer : string) (st : LoopState) (h : list event) :
  forallb is_loop_event (judge_and_record env update i pair final_answer st h).1
  = true.
Proof.
  unfold judge_and_record.
  destruct (negb (passed (answer pair) final_answer) && update);
    [| reflexivity].
  unfold bind, ask.
  destruct (console_input env h (update_prompt final_answer)) as [typed | e];
    [| reflexivity].
  destruct (accepts typed); reflexivity.
Qed.

(** The state after the Judge step: either the entry alone was appended
    or the update was applied. *)
Lemma judge_and_record_state (i : nat) (pair : QAPair)
    (final_answer : string) (st st' : LoopState) (h : list event) :
  (judge_and_record env update i pair final_answer st h).2 = Returned st' ->
  st' = append_result pair final_answer (passed (answer pair) final_answer) st
  \/ st' = accept_update i pair final_answer st.
Proof.
  unfold judge_and_record.
  destruct (negb (passed (answer pair) final_answer) && update).
  - unfold bind, ask.
    destruct (console_input env h (update_prompt final_answer))
      as [typed | e]; [| discriminate].
    destruct (accepts typed); simpl; intros H; inversion H; auto.
  - simpl. intros H; inversion H; auto.
Qed.

Lemma eval_pair_events (i : nat) (pair : QAPair) (st : LoopState)
    (h : list event) :
  forallb is_loop_event (eval_pair env update tools i pair st h).1 = true.
Proof.
  unfold eval_pair, bind.
  pose proof (agent_turn_events (question pair) h) as Hturn.
  destruct (agent_turn env tools (question pair) h) as [evs [final | e]];
    simpl in Hturn; [| exact Hturn].
  pose proof (judge_and_record_events i pair final st (h ++ evs)) as Hjudge.
  destruct (judge_and_record env update i pair final st (h ++ evs))
    as [evs' out]; simpl in *.
  rewrite forallb_app, Hturn, Hjudge. reflexivity.
Qed.

Lemma eval_pair_state (i : nat) (pair : QAPair) (st st' : LoopState)
    (h : list event) :
  (eval_pair env update tools i pair st h).2 = Returned st' ->
  exists final_answer,
    st' = append_result pair final_answer (passed (answer pair) final_answer) st
    \/ st' = accept_update i pair final_answer st.
Proof.
  unfold eval_pair, bind.
  destruct (agent_turn env tools (question pair) h) as [evs [final | e]];
    [| discriminate].
  pose proof (judge_and_record_state i pair final st st' (h ++ evs)) as Hjudge.
  destruct (judge_and_record env update i pair final st (h ++ evs))
    as [evs' out]; simpl in *.
  intros H. exists final. auto.
Qed.

Lemma eval_loop_events (n i : nat) (st : LoopState) (h : list event) :
  forallb is_loop_event (eval_loop env update tools n i st h).1 = true.
Proof.
  revert i st h. induction n as [|n IH]; intros i st h; [reflexivity |].
  simpl. destruct (qa_pairs st !! i) as [p |]; [| reflexivity].
  pose proof (eval_pair_events i p st h) as Hpair.
  destruct (eval_pair env update tools i p st h) as [evs [st' | e]];
    simpl in Hpair; [| exact Hpair].
  specialize (IH (S i) st' (h ++ evs)).
  destruct (eval_loop env update tools n (S i) st' (h ++ evs)) as [evs' r].
  simpl in *. rewrite forallb_app, Hpair, IH. reflexivity.
Qed.

(** While [updates_made] is false the dataset in memory is the one that
    was loaded. *)
Lemma eval_loop_dataset (pairs : list QAPair) (n i : nat) (st : LoopState)
    (h : list event) :
  (updates_made st = false -> qa_pairs st = pairs) ->
  updates_made (eval_loop env update tools n i st h).2.1 = false ->
  qa_pairs (eval_loop env update tools n i st h).2.1 = pairs.
Proof.
  revert i st h. induction n as [|n IH]; intros i st h Hinv; [exact Hinv |].
  simpl. destruct (qa_pairs st !! i) as [p |]; [| exact Hinv].
  pose proof (fun st' => eval_pair_state i p st st' h) as Hstate.
  destruct (eval_pair env update tools i p st h) as [evs [st' | e]];
    [| exact Hinv].
  specialize (IH (S i) st' (h ++ evs)).
  destruct (eval_loop env update tools n (S i) st' (h ++ evs)) as [evs' r].
  simpl in *. apply IH.
  destruct (Hstate st' eq_refl) as [final [-> | ->]]; simpl; auto.
  discriminate.
Qed.

(** Without an exception the loop records one result for every pair from
    index [i] on: the iteration count is enough. *)
Lemma eval_loop_all_processed (n i : nat) (st : LoopState) (h : list event) :
  i + n = length (qa_pairs st) ->
  (eval_loop env update tools n i st h).2.2 = None ->
  length (results (eval_loop env update tools n i st h).2.1)
  = length (results st) + n
  /\ length (qa_pairs (eval_loop env update tools n i st h).2.1)
     = length (qa_pairs st).
Proof.
  revert i st h. induction n as [|n IH]; intros i st h Hlen; simpl.
  - intros _. split; [lia | reflexivity].
  - destruct (qa_pairs st !! i) as [p |] eqn:Hi.
    + pose proof (fun st' => eval_pair_state i p st st' h) as Hstate.
      destruct (eval_pair env update tools i p st h) as [evs [st' | e]];
        [| discriminate].
      assert (Hst' : length (results st') = S (length (results st))
                     /\ length (qa_pairs st') = length (qa_pairs st)).
      { destruct (Hstate st' eq_refl) as [final [-> | ->]]; simpl;
          rewrite ?length_app, ?length_insert; simpl; split; lia. }
      destruct Hst' as [Hres Hqa].
      specialize (IH (S i) st' (h ++ evs)).
      destruct (eval_loop env update tools n (S i) st' (h ++ evs))
        as [evs' r].
      simpl in *. intros Hnone.
      destruct (IH ltac:(lia) Hnone) as [IHres IHqa]. split; lia.
    + apply lookup_ge_None in Hi. lia.
Qed.

(** An exception in the iteration at index [i] ends the loop there. *)
Lemma eval_loop_raised (n i : nat) (pair : QAPair) (st : LoopState)
    (h evs : list event) (e : string) :
  qa_pairs st !! i = Some pair ->
  eval_pair env update tools i pair st h = (evs, Raised e) ->
  eval_loop env update tools (S n) i st h = (evs, (st, Some e)).
Proof. intros Hi Hpair. simpl. now rewrite Hi, Hpair. Qed.

End LoopFacts.

Lemma save_events_loop (evs : list event) :
  forallb is_loop_event evs = true -> save_events evs = [].
Proof.
  induction evs as [|ev evs IH]; [reflexivity |].
  simpl. intros H. apply andb_true_iff in H as [Hev Hevs].
  unfold save_events in *. simpl.
  destruct ev; simpl in *; try discriminate; auto.
Qed.

Lemma save_events_app (l1 l2 : list event) :
  save_events (l1 ++ l2) = save_events l1 ++ save_events l2.
Proof. apply List.filter_app. Qed.

Lemma try_block_no_save (env : Env) (update : bool) (pairs : list QAPair)
    (h : list event) :
  save_events (try_block env update pairs h).1 = [].
Proof.
  unfold try_block.
  destruct (session_initialize env); [| reflexivity].
  destruct (session_list_tools env) as [listed | e]; [| reflexivity].
  match goal with
  | |- context [eval_loop ?a ?b ?c ?d ?e ?f ?g] =>
      pose proof (eval_loop_events a b c d e f g) as Hloop;
      destruct (eval_loop a b c d e f g) as [evs r]
  end.
  simpl in *. now apply save_events_loop.
Qed.

(** A [try] block that no exception leaves has recorded one result for
    every pair of the dataset. *)
Lemma try_block_all_processed (env : Env) (update : bool)
    (pairs : list QAPair) (h : list event) :
  (try_block env update pairs h).2.2 = None ->
  length (results (try_block env update pairs h).2.1) = length pairs.
Proof.
  unfold try_block.
  destruct (session_initialize env); [| discriminate].
  destruct (session_list_tools env) as [listed | e]; [| discriminate].
  match goal with
  | |- context [eval_loop ?a ?b ?c ?d ?e ?f ?g] =>
      pose proof (eval_loop_all_processed a b c d e f g eq_refl) as Hloop;
      destruct (eval_loop a b c d e f g) as [evs r]
  end.
  simpl in *. intros Hnone. now destruct (Hloop Hnone).
Qed.

Lemma try_block_dataset (env : Env) (update : bool) (pairs : list QAPair)
    (h : list event) :
  updates_made (try_block env update pairs h).2.1 = false ->
  qa_pairs (try_block env update pairs h).2.1 = pairs.
Proof.
  unfold try_block.
  destruct (session_initialize env); [| reflexivity].
  destruct (session_list_tools env) as [listed | e]; [| reflexivity].
  match goal with
  | |- context [eval_loop ?a ?b ?c ?d ?e ?f ?g] =>
      pose proof (eval_loop_dataset a b c pairs d e f g) as Hloop;
      destruct (eval_loop a b c d e f g) as [evs r]
  end.
  simpl in *. apply Hloop. reflexivity.
Qed.

(** ** The run *)

(** A run that reaches the [try] block: its trace is the block's events
    followed by what comes after the block. *)
Lemma run_evaluation_completed (env : Env) (update : bool)
    (tr : list event) (st : LoopState) (aborted : option string) :
  run_evaluation env update = (tr, Completed st aborted) ->
  exists f pairs,
    evaluation_file env = Some f
    /\ load_evaluation_file f = Returned pairs
    /\ try_block env update pairs [] = ((try_block env update pairs []).1,
                                        (st, aborted))
    /\ tr = (try_block env update pairs []).1
            ++ after_try env st aborted (try_block env update pairs []).1.
Proof.
  unfold run_evaluation.
  destruct (negb (server_script_exists env)); [discriminate |].
  destruct (evaluation_file env) as [f |]; [| discriminate].
  destruct (negb (api_key_set env)); [discriminate |].
  destruct (load_evaluation_file f) as [pairs | e] eqn:Hload; [| discriminate].
  destruct (try_block env update pairs []) as [evs [st0 ab0]] eqn:Htry.
  intros H. inversion H; subst. exists f, pairs.
  rewrite Htry. simpl. repeat split; auto.
Qed.

(** C5. A run that ends with [updates_made] false has not called
    [save_evaluation_file] and has written nothing: its trace holds no
    event of the write-back, and the dataset in memory is still the one
    that was loaded.  A run that stops before the loop emits nothing. *)
Theorem no_save_without_update (env : Env) (update : bool) :
  let run := run_evaluation env update in
  (forall st aborted,
     run.2 = Completed st aborted ->
     updates_made st = false ->
     save_events run.1 = []
     /\ (forall f, evaluation_file env = Some f ->
         load_evaluation_file f = Returned (qa_pairs st)))
  /\ ((forall st aborted, run.2 <> Completed st aborted) -> run.1 = []).
Proof.
  intros run. split.
  - intros st aborted Hexit Hupd.
    destruct run as [tr ex] eqn:Hrun. simpl in Hexit. subst ex.
    destruct (run_evaluation_completed env update tr st aborted Hrun)
      as (f & pairs & Hfile & Hload & Htry & Htr).
    pose proof (try_block_no_save env update pairs []) as Hnosave.
    pose proof (try_block_dataset env update pairs []) as Hdata.
    rewrite Htry in Hdata. simpl in Hdata.
    split.
    + simpl. rewrite Htr, save_events_app, Hnosave. simpl.
      unfold after_try. rewrite Hupd.
      destruct aborted; reflexivity.
    + intros f' Hf'. rewrite Hfile in Hf'. inversion Hf'; subst f'.
      rewrite Hload. f_equal. symmetry. now apply Hdata.
  - unfold run, run_evaluation.
    destruct (negb (server_script_exists env)); [reflexivity |].
    destruct (evaluation_file env) as [f |]; [| reflexivity].
    destruct (negb (api_key_set env)); [reflexivity |].
    destruct (load_evaluation_file f) as [pairs | e]; [| reflexivity].
    destruct (try_block env update pairs []) as [evs [st0 ab0]].
    intros H. exfalso. apply (H st0 ab0). reflexivity.
Qed.

Lemma no_save_without_update_witness :
  save_events (run_evaluation (Scenario.listing "Only b.txt exists." "n") true).1
  = []
  /\ load_evaluation_file (saved_file [mkPair "list files" "a.txt"])
     = Returned [mkPair "list files" "a.txt"].
Proof.
  destruct (no_save_without_update (Scenario.listing "Only b.txt exists." "n")
              true) as [H _].
  destruct (H (mkState [mkPair "list files" "a.txt"]
                [mkResult "list files" "a.txt" "Only b.txt exists." false]
                false)
              None eq_refl eq_refl) as [Hsave Hdata].
  split; [exact Hsave |].
  exact (Hdata (saved_file [mkPair "list files" "a.txt"]) eq_refl).
Defined.

(** C9. Whenever [updates_made] is true on leaving the [try] block, with or
    without an exception, the run calls [save_evaluation_file] on the
    dataset in memory after the handler and then prints the summary of the
    results gathered so far; nothing before the handler writes the
    dataset. *)
Theorem save_and_summary_after_abort
    (env : Env) (update : bool) (tr : list event) (st : LoopState)
    (aborted : option string) :
  run_evaluation env update = (tr, Completed st aborted) ->
  updates_made st = true ->
  exists pre ok,
    tr = pre
         ++ match aborted with
            | Some e => [EvError e]
            | None => []
            end
         ++ [EvSave (qa_pairs st);
             EvWrite (saved_file (qa_pairs st));
             EvSaveStatus ok;
             EvSummary (length (results st)) (count_passed (results st))]
    /\ save_events pre = [].
Proof.
  intros Hrun Hupd.
  destruct (run_evaluation_completed env update tr st aborted Hrun)
    as (f & pairs & Hfile & Hload & Htry & Htr).
  exists (try_block env update pairs []).1.
  set (pre := (try_block env update pairs []).1) in *.
  set (handler := match aborted with Some e => [EvError e] | None => [] end).
  exists (match file_write env ((pre ++ handler) ++ [EvSave (qa_pairs st)])
                  (saved_file (qa_pairs st)) with
          | Returned _ => true
          | Raised _ => false
          end).
  split; [| apply try_block_no_save].
  rewrite Htr. f_equal. unfold after_try. fold handler. rewrite Hupd.
  f_equal. unfold save_evaluation_file.
  destruct (file_write env ((pre ++ handler) ++ [EvSave (qa_pairs st)])
              (saved_file (qa_pairs st))); reflexivity.
Qed.

Lemma save_and_summary_after_abort_witness :
  exists pre,
    (run_evaluation Scenario.abort_after_update true).1
    = pre
      ++ [EvError "overloaded";
          EvSave [mkPair "2+2?" "five"; mkPair "3+3?" "6"];
          EvWrite (saved_file [mkPair "2+2?" "five"; mkPair "3+3?" "6"]);
          EvSaveStatus true;
          EvSummary 1 1].
Proof.
  destruct (save_and_summary_after_abort Scenario.abort_after_update true
              (run_evaluation Scenario.abort_after_update true).1
              (mkState [mkPair "2+2?" "five"; mkPair "3+3?" "6"]
                 [mkResult "2+2?" "five" "five" true] true)
              (Some "overloaded") eq_refl eq_refl)
    as (pre & ok & Htr & _).
  exists pre. rewrite Htr. simpl. repeat f_equal.
  destruct ok; [reflexivity |].
  exfalso.
  apply (f_equal (fun l => existsb (fun ev =>
           match ev with EvSaveStatus false => true | _ => false end) l))
    in Htr.
  rewrite !existsb_app in Htr. simpl in Htr.
  rewrite orb_true_r in Htr. vm_compute in Htr. discriminate.
Defined.

(** ** Tool failures *)

(** C3 (amended). A tool call that raises during the turn of the question
    at index [i] is not caught for that question: the exception leaves the
    loop with the variables as they were before the question, so no result
    is recorded for it, no later question is processed, and the exception
    reaches the handler of the run; what follows the loop reports the
    exception and summarises the results gathered before. *)
Theorem tool_failure_aborts_loop
    (env : Env) (update : bool) (tools : list ToolDescriptor) (n i : nat)
    (pair : QAPair) (st : LoopState) (h : list event) (r : Response)
    (e : string) :
  let ev1 := EvModel [user_text (question pair)] tools in
  qa_pairs st !! i = Some pair ->
  messages_create env h [user_text (question pair)] tools = Returned r ->
  stop_reason r = "tool_use" ->
  (exec_tools env (resp_content r) (h ++ [ev1])).2 = Raised e ->
  exists calls,
    calls `prefix_of` tool_requests (resp_content r)
    /\ eval_loop env update tools (S n) i st h
       = (ev1 :: map tool_event calls, (st, Some e))
    /\ forall h',
         after_try env st (Some e) h'
         = EvError e
           :: (if updates_made st
               then save_evaluation_file env (qa_pairs st) (h' ++ [EvError e])
               else [])
           ++ [EvSummary (length (results st)) (count_passed (results st))].
Proof.
  intros ev1 Hi Hfirst Hstop Hexec.
  pose proof (agent_turn_shape env tools (question pair) h) as Hshape.
  simpl in Hshape. fold ev1 in Hshape. rewrite Hfirst in Hshape.
  rewrite (proj2 (String.eqb_eq _ _) Hstop) in Hshape.
  destruct Hshape
    as (calls & Hpre & [(e' & He' & Ht) | (trs & ms & out & Hret & _ & _)]);
    [| congruence].
  assert (e' = e) by congruence. subst e'.
  exists calls. split; [exact Hpre |]. split; [| reflexivity].
  apply (eval_loop_raised env update tools n i pair st h _ e Hi).
  unfold eval_pair. now apply bind_raised.
Qed.

Lemma tool_failure_aborts_loop_witness :
  (eval_loop Scenario.failing_tool false Scenario.tools 2 0
     (mkState [mkPair "list files" "a.txt"; mkPair "2+2?" "4"] [] false) []).2
  = (mkState [mkPair "list files" "a.txt"; mkPair "2+2?" "4"] [] false,
     Some "tool execution failed").
Proof.
  destruct (tool_failure_aborts_loop Scenario.failing_tool false Scenario.tools
              1 0 (mkPair "list files" "a.txt")
              (mkState [mkPair "list files" "a.txt"; mkPair "2+2?" "4"] []
                 false)
              [] Scenario.list_dir_request "tool execution failed"
              eq_refl eq_refl eq_refl eq_refl)
    as (calls & _ & Hloop & _).
  rewrite Hloop. reflexivity.
Defined.

(** C3, as stated, fails: with two questions and a tool call that raises on
    the first, the run records no result at all, neither a failed one for
    the first question nor any for the second, and the second question is
    never sent to the model service. *)
Lemma tool_failure_recovery_counterexample :
  let run := run_evaluation Scenario.failing_tool false in
  run.2
  = Completed
      (mkState [mkPair "list files" "a.txt"; mkPair "2+2?" "4"] [] false)
      (Some "tool execution failed")
  /\ run.1
     = [EvInitialize; EvListTools;
        EvModel [user_text "list files"] Scenario.tools;
        EvTool "list_dir" "{}";
        EvError "tool execution failed";
        EvSummary 0 0]
  /\ ~ In (EvModel [user_text "2+2?"] Scenario.tools) run.1
  /\ ~ (exists st aborted res,
          run.2 = Completed st aborted
          /\ In res (results st)
          /\ r_question res = "list files"
          /\ r_passed res = false).
Proof.
  cbv zeta. split; [reflexivity |]. split; [reflexivity |]. split.
  - vm_compute. intros H.
    repeat (destruct H as [H | H]; [discriminate H |]). exact H.
  - intros (st & aborted & res & Hrun & Hin & _).
    vm_compute in Hrun. inversion Hrun; subst st. exact Hin.
Qed.

(** ** The dataset store *)

Section StoreFacts.

Lemma not_control_xml_ok (c : ascii) :
  negb (PyStr.is_control c) = true -> xml_char_ok c = true.
Proof.
  destruct c as [[] [] [] [] [] [] [] []]; vm_compute; intros H;
    solve [reflexivity | discriminate H].
Qed.

Lemma not_control_not_cr (c : ascii) :
  negb (PyStr.is_control c) = true -> Ascii.eqb c PyStr.CR = false.
Proof.
  destruct c as [[] [] [] [] [] [] [] []]; vm_compute; intros H;
    solve [reflexivity | discriminate H].
Qed.

Lemma no_control_xml_ok (s : string) :
  PyStr.no_control s = true -> PyStr.all_chars xml_char_ok s = true.
Proof.
  unfold PyStr.no_control. induction s as [|c t IH]; simpl; [reflexivity |].
  intros H. apply andb_true_iff in H as [Hc Ht].
  now rewrite (not_control_xml_ok c Hc), IH.
Qed.

Lemma no_control_newlines (s : string) :
  PyStr.no_control s = true -> normalize_newlines s = s.
Proof.
  unfold PyStr.no_control. induction s as [|c t IH]; simpl; [reflexivity |].
  intros H. apply andb_true_iff in H as [Hc Ht].
  now rewrite (not_control_not_cr c Hc), IH.
Qed.

(** A kept field is read back as it was written. *)
Lemma read_text_kept (s : string) :
  kept_field s -> read_text (Some s) = Some (Some s).
Proof.
  intros (Hne & Hctl & Hxml & _). unfold read_text.
  now rewrite Hne, Hxml, (no_control_newlines s Hctl).
Qed.

(** [ET.indent] on the children of the root. *)
Lemma indent_child_list_pairs (l : list QAPair) :
  indent_child_list (indent_children 1) 0 (map qa_pair_element l)
  = stored_pairs l.
Proof.
  induction l as [|p rest IH]; [reflexivity |].
  destruct rest as [|p' rest'].
  - reflexivity.
  - change (map qa_pair_element (p :: p' :: rest'))
      with (qa_pair_element p :: map qa_pair_element (p' :: rest')).
    change (stored_pairs (p :: p' :: rest'))
      with (stored_pair p (indentation 1) :: stored_pairs (p' :: rest')).
    rewrite <- IH. reflexivity.
Qed.

Lemma read_stored_pair (p : QAPair) (k : nat) :
  k <= 1 ->
  kept_field (question p) -> kept_field (answer p) ->
  read_element (stored_pair p (indentation k))
  = Some (stored_pair p (indentation k)).
Proof.
  intros Hk Hq Ha. unfold stored_pair. cbn [read_element read_all].
  rewrite (read_text_kept _ Hq), (read_text_kept _ Ha).
  destruct k as [|[|k]]; [reflexivity | reflexivity | lia].
Qed.

Lemma read_stored_pairs (l : list QAPair) :
  Forall (fun p => kept_field (question p) /\ kept_field (answer p)) l ->
  read_all read_element (stored_pairs l) = Some (stored_pairs l).
Proof.
  induction 1 as [|p rest [Hq Ha] Hrest IH]; [reflexivity |].
  change (stored_pairs (p :: rest))
    with (stored_pair p (indentation match rest with [] => 0 | _ :: _ => 1 end)
          :: stored_pairs rest).
  cbn [read_all]. fold (read_all read_element (stored_pairs rest)).
  rewrite IH, read_stored_pair; auto.
  destruct rest; lia.
Qed.

(** The file that [save_evaluation_file] writes for kept fields. *)
Lemma saved_file_kept (p : QAPair) (rest : list QAPair) :
  Forall (fun p => kept_field (question p) /\ kept_field (answer p))
    (p :: rest) ->
  saved_file (p :: rest)
  = Document
      (Elem "evaluation" (Some (indentation 1)) None (stored_pairs (p :: rest))).
Proof.
  intros Hkept. unfold saved_file, build_tree, indent.
  change (elem_children _) with (map qa_pair_element (p :: rest)).
  cbn [map]. cbn [indent_children].
  change (qa_pair_element p :: map qa_pair_element rest)
    with (map qa_pair_element (p :: rest)).
  rewrite indent_child_list_pairs.
  unfold written. cbn [read_element].
  fold (read_all read_element (stored_pairs (p :: rest))).
  rewrite (read_stored_pairs _ Hkept). reflexivity.
Qed.

Lemma parse_stored_pair (p : QAPair) (tl : string) :
  kept_field (question p) -> kept_field (answer p) ->
  parse_pair (stored_pair p tl) = Returned p.
Proof.
  intros (_ & _ & _ & Hq) (_ & _ & _ & Ha). unfold parse_pair. simpl.
  rewrite Hq, Ha. now destruct p.
Qed.

Lemma parse_stored_pairs (l : list QAPair) :
  Forall (fun p => kept_field (question p) /\ kept_field (answer p)) l ->
  parse_pairs (List.filter (fun c => String.eqb (elem_tag c) "qa_pair")
                 (stored_pairs l))
  = Returned l.
Proof.
  induction 1 as [|p rest [Hq Ha] Hrest IH]; [reflexivity |].
  change (stored_pairs (p :: rest))
    with (stored_pair p (indentation match rest with [] => 0 | _ :: _ => 1 end)
          :: stored_pairs rest).
  cbn [List.filter stored_pair elem_tag]. simpl String.eqb. cbn iota.
  cbn [parse_pairs].
  fold (stored_pair p (indentation match rest with [] => 0 | _ :: _ => 1 end)).
  rewrite (parse_stored_pair p _ Hq Ha), IH. reflexivity.
Qed.

End StoreFacts.

(** C6 (amended). For a non-empty sequence of pairs whose questions and
    answers are non-empty, hold no control character, are made of
    characters that XML allows (which leaves out U+FFFE, U+FFFF and the
    surrogates) and have no whitespace at either end, loading the saved
    file returns the pairs, in order, and saving what was loaded writes
    the same file again, from which the same pairs are loaded. *)
Theorem save_load_roundtrip (pairs : list QAPair) :
  pairs <> [] ->
  Forall (fun p => kept_field (question p) /\ kept_field (answer p)) pairs ->
  load_evaluation_file (saved_file pairs) = Returned pairs
  /\ forall loaded,
       load_evaluation_file (saved_file pairs) = Returned loaded ->
       saved_file loaded = saved_file pairs
       /\ load_evaluation_file (saved_file loaded) = Returned pairs.
Proof.
  intros Hne Hkept.
  assert (Hload : load_evaluation_file (saved_file pairs) = Returned pairs).
  { destruct pairs as [|p rest]; [contradiction |].
    rewrite (saved_file_kept p rest Hkept).
    unfold load_evaluation_file, et_parse, et_findall, elem_children.
    apply parse_stored_pairs, Hkept. }
  split; [exact Hload |].
  intros loaded Hloaded. rewrite Hload in Hloaded.
  inversion Hloaded; subst loaded. auto.
Qed.

Lemma save_load_roundtrip_witness :
  load_evaluation_file
    (saved_file [mkPair "list files" "a.txt"; mkPair "2+2?" "4"])
  = Returned [mkPair "list files" "a.txt"; mkPair "2+2?" "4"].
Proof.
  refine (proj1 (save_load_roundtrip
                   [mkPair "list files" "a.txt"; mkPair "2+2?" "4"] _ _)).
  - discriminate.
  - repeat constructor.
Defined.

(** C6, as stated, fails: a question that starts with a space is not
    empty and holds no control character, yet it is loaded without the
    space, so the file saved from what was loaded holds another
    question. *)
Lemma save_load_roundtrip_counterexample :
  let pairs := [mkPair " 2+2?" "4"] in
  pairs <> []
  /\ Forall (fun p =>
               PyStr.is_empty (question p) = false
               /\ PyStr.no_control (question p) = true
               /\ PyStr.is_empty (answer p) = false
               /\ PyStr.no_control (answer p) = true) pairs
  /\ load_evaluation_file (saved_file pairs) = Returned [mkPair "2+2?" "4"]
  /\ load_evaluation_file (saved_file [mkPair "2+2?" "4"])
     = Returned [mkPair "2+2?" "4"]
  /\ [mkPair "2+2?" "4"] <> pairs
  /\ saved_file [mkPair "2+2?" "4"] <> saved_file pairs.
Proof.
  cbv zeta. split; [discriminate |]. split; [repeat constructor |].
  split; [reflexivity |]. split; [reflexivity |].
  split; [discriminate |]. vm_compute. discriminate.
Qed.

(** Without any pair the saved file is the bare root, and it loads as the
    empty sequence; an empty field is written as an element without text
    and makes the load fail. *)
Example save_load_empty :
  saved_file [] = Document (Elem "evaluation" None None [])
  /\ load_evaluation_file (saved_file []) = Returned [].
Proof. split; reflexivity. Qed.

Example load_empty_field_fails :
  load_evaluation_file (saved_file [mkPair "2+2?" EmptyString])
  = Raised "'NoneType' object has no attribute 'strip'".
Proof. reflexivity. Qed.

(** ** Scenarios of the specification *)

(** Pure text answer: one passed result, no tool call, no write-back. *)
Example scenario_text_answer :
  let run := run_evaluation Scenario.arithmetic false in
  run.2
  = Completed
      (mkState [mkPair "2+2?" "4"]
         [mkResult "2+2?" "4" "The answer is 4." true] false)
      None
  /\ tool_calls run.1 = []
  /\ save_events run.1 = [].
Proof. cbv zeta. repeat split; reflexivity. Qed.

(** One tool call, then an answer that holds the expected file name. *)
Example scenario_tool_answer :
  let run :=
    run_evaluation (Scenario.listing "The files are a.txt and b.txt." "n")
      false in
  run.2
  = Completed
      (mkState [mkPair "list files" "a.txt"]
         [mkResult "list files" "a.txt" "The files are a.txt and b.txt." true]
         false)
      None
  /\ tool_calls run.1 = [("list_dir", "{}")].
Proof. cbv zeta. split; reflexivity. Qed.

(** The same with a wrong second answer, outside update mode: failed,
    dataset untouched, summary 1 total and 0 passed. *)
Example scenario_wrong_answer :
  let run := run_evaluation (Scenario.listing "Only b.txt exists." "n") false in
  run.2
  = Completed
      (mkState [mkPair "list files" "a.txt"]
         [mkResult "list files" "a.txt" "Only b.txt exists." false] false)
      None
  /\ save_events run.1 = []
  /\ last run.1 = Some (EvSummary 1 0).
Proof. cbv zeta. repeat split; reflexivity. Qed.

(** A tool result flagged as an error is handed to the model service like
    any other result; the answer judged is the model's, and the run goes
    on to the next question. *)
Example scenario_reported_error :
  let run := run_evaluation Scenario.reported_error false in
  run.2
  = Completed
      (mkState [mkPair "list files" "a.txt"; mkPair "2+2?" "4"]
         [mkResult "list files" "a.txt" "I cannot read a.txt" true;
          mkResult "2+2?" "4" "I cannot read a.txt" false]
         false)
      None.
Proof. reflexivity. Qed.

(** * Further properties *)



(** ** More on the Judge *)

(** X1. An ASCII answer that passes still passes when ASCII text is put
    before and after it: the Judge tolerates verbose answers around the
    expected phrase. *)
Theorem judge_tolerates_context (expected actual pre post : string) :
  PyStr.all_chars is_ascii pre = true ->
  PyStr.all_chars is_ascii actual = true ->
  PyStr.all_chars is_ascii post = true ->
  passed expected actual = true ->
  passed expected (pre +:+ actual +:+ post) = true.
Proof.
  intros _ _ _. unfold passed. rewrite !contains_iff.
  intros (p & q & H).
  exists (PyStr.lower pre +:+ p), (q +:+ PyStr.lower post).
  rewrite !lower_app, H, !str_app_assoc. reflexivity.
Qed.

Lemma judge_tolerates_context_witness :
  passed "a.txt" "The files are A.TXT and b.txt." = true.
Proof.
  apply (judge_tolerates_context "a.txt" "A.TXT" "The files are "
           " and b.txt."); reflexivity.
Defined.

(** X2. The Judge ignores letter case on both sides and every string
    passes against itself. *)
Theorem judge_ignores_case (expected actual : string) :
  passed (PyStr.lower expected) actual = passed expected actual
  /\ passed expected (PyStr.lower actual) = passed expected actual
  /\ passed actual actual = true.
Proof.
  unfold passed. rewrite !lower_idem.
  split; [reflexivity |]. split; [reflexivity | apply contains_refl].
Qed.

(** X3. Against the empty actual answer only the empty expected answer
    passes: an answer without any text fails every pair whose expected
    answer is not empty. *)
Theorem only_empty_expected_passes_empty_answer (expected : string) :
  passed expected EmptyString = true <-> expected = EmptyString.
Proof.
  split.
  - unfold passed. simpl. destruct expected; [reflexivity |].
    simpl. discriminate.
  - intros ->. reflexivity.
Qed.

(** ** More on the agent turn *)

Section MoreAgentTurnFacts.

Variable env : Env.

(** Every answer that a turn returns is the stripped text of a
    response. *)
Lemma agent_turn_answer (tools : list ToolDescriptor) (question : string)
    (h : list event) (a : string) :
  (agent_turn env tools question h).2 = Returned a ->
  exists blocks, a = PyStr.strip (text_of blocks).
Proof.
  unfold agent_turn, bind, call_model, ret.
  destruct (messages_create env h [user_text question] tools) as [r | e];
    [| discriminate].
  destruct (String.eqb (stop_reason r) "tool_use").
  - destruct (exec_tools env (resp_content r) _) as [evs [trs | e]];
      [| discriminate].
    match goal with
    | |- context [messages_create env ?hh ?mm tools] =>
        destruct (messages_create env hh mm tools) as [r2 | e2]
    end; simpl; intros H; inversion H; eauto.
  - simpl. intros H; inversion H; eauto.
Qed.

(** The result blocks of the tool loop echo the ids of the requests, in
    request order. *)
Lemma exec_tools_ids (blocks : list Block) (h : list event)
    (trs : list ToolResultBlock) :
  (exec_tools env blocks h).2 = Returned trs ->
  map tool_use_id trs = request_ids blocks.
Proof.
  revert h trs. induction blocks as [|b blocks IH]; intros h trs.
  - simpl. intros H; inversion H. reflexivity.
  - destruct b as [t | id name input | ty]; simpl; try apply IH.
    unfold bind, call_tool, ret.
    destruct (session_call_tool env h name input) as [result | e];
      [| discriminate].
    specialize (IH (h ++ [EvTool name input])).
    destruct (exec_tools env blocks (h ++ [EvTool name input]))
      as [evs [trs' | e]]; simpl in *; [| discriminate].
    intros H; inversion H; subst. simpl. f_equal. now apply IH.
Qed.

Lemma exec_tools_flag (flag : bool) (blocks : list Block) (h : list event) :
  exec_tools (with_is_error flag env) blocks h = exec_tools env blocks h.
Proof.
  revert h. induction blocks as [|b blocks IH]; intros h; [reflexivity |].
  destruct b as [t | id name input | ty]; simpl; try apply IH.
  unfold bind, call_tool, ret. cbn [session_call_tool with_is_error].
  destruct (session_call_tool env h name input) as [result | e];
    [| reflexivity].
  cbn [result_content]. now rewrite IH.
Qed.

Lemma agent_turn_flag (flag : bool) (tools : list ToolDescriptor)
    (question : string) (h : list event) :
  agent_turn (with_is_error flag env) tools question h
  = agent_turn env tools question h.
Proof.
  unfold agent_turn, bind, call_model, ret.
  cbn [messages_create with_is_error].
  destruct (messages_create env h [user_text question] tools) as [r | e];
    [| reflexivity].
  destruct (String.eqb (stop_reason r) "tool_use"); [| reflexivity].
  now rewrite exec_tools_flag.
Qed.

Lemma eval_pair_flag (flag : bool) (update : bool)
    (tools : list ToolDescriptor) (i : nat) (pair : QAPair) (st : LoopState)
    (h : list event) :
  eval_pair (with_is_error flag env) update tools i pair st h
  = eval_pair env update tools i pair st h.
Proof.
  unfold eval_pair, bind. rewrite agent_turn_flag.
  destruct (agent_turn env tools (question pair) h) as [evs [final | e]];
    reflexivity.
Qed.

Lemma eval_loop_flag (flag : bool) (update : bool)
    (tools : list ToolDescriptor) (n i : nat) (st : LoopState)
    (h : list event) :
  eval_loop (with_is_error flag env) update tools n i st h
  = eval_loop env update tools n i st h.
Proof.
  revert i st h. induction n as [|n IH]; intros i st h; [reflexivity |].
  simpl. destruct (qa_pairs st !! i) as [p |]; [| reflexivity].
  rewrite eval_pair_flag.
  destruct (eval_pair env update tools i p st h) as [evs [st' | e]];
    [| reflexivity].
  now rewrite IH.
Qed.

End MoreAgentTurnFacts.

(** X4. The answer that a turn hands to the Judge never starts or ends
    with whitespace: stripping it again, on either side or both, changes
    nothing. *)
Theorem agent_turn_answer_stripped
    (env : Env) (tools : list ToolDescriptor) (question : string)
    (h : list event) (a : string) :
  (agent_turn env tools question h).2 = Returned a ->
  PyStr.strip a = a /\ PyStr.lstrip a = a /\ PyStr.rstrip a = a.
Proof.
  intros H. destruct (agent_turn_answer env tools question h a H) as [bs ->].
  split; [apply strip_idem |]. split.
  - apply lstrip_rstrip_lstrip.
  - unfold PyStr.strip. apply rstrip_idem.
Qed.

Lemma agent_turn_answer_stripped_witness :
  PyStr.strip "five" = "five".
Proof.
  apply (agent_turn_answer_stripped Scenario.abort_after_update Scenario.tools
           "2+2?" [] "five").
  reflexivity.
Defined.

(** X5. When the first response stops with [tool_use] and every tool call
    returns, the turn calls each requested tool once, in order, and then
    sends the follow-up conversation: the question, the first response's
    content as the assistant's message, and one user message with a result
    block per request, each echoing its request's id.  The answer is the
    stripped text of the second response alone. *)
Theorem tool_turn_follow_up
    (env : Env) (tools : list ToolDescriptor) (question : string)
    (h evs : list event) (r : Response) (trs : list ToolResultBlock) :
  let ev1 := EvModel [user_text question] tools in
  let follow_up :=
    [user_text question;
     {| role := "assistant"; content := ContentBlocks (resp_content r) |};
     {| role := "user"; content := ContentResults trs |}] in
  messages_create env h [user_text question] tools = Returned r ->
  stop_reason r = "tool_use" ->
  exec_tools env (resp_content r) (h ++ [ev1]) = (evs, Returned trs) ->
  agent_turn env tools question h
  = (ev1 :: evs ++ [EvModel follow_up tools],
     match messages_create env ((h ++ [ev1]) ++ evs) follow_up tools with
     | Returned r2 => Returned (PyStr.strip (text_of (resp_content r2)))
     | Raised e => Raised e
     end)
  /\ evs = map tool_event (tool_requests (resp_content r))
  /\ map tool_use_id trs = request_ids (resp_content r).
Proof.
  intros ev1 follow_up Hfirst Hstop Hexec.
  split; [| split].
  - unfold agent_turn, bind, call_model, ret. fold ev1.
    rewrite Hfirst, (proj2 (String.eqb_eq _ _) Hstop), Hexec.
    subst follow_up. simpl app.
    match goal with
    | |- context [messages_create env ?hh ?mm tools] =>
        destruct (messages_create env hh mm tools)
    end; simpl; rewrite ?app_nil_r; reflexivity.
  - destruct (exec_tools_calls env (resp_content r) (h ++ [ev1]))
      as (calls & Hev & _ & Hall).
    rewrite Hexec in Hev, Hall. simpl in Hev, Hall.
    now rewrite Hev, (Hall trs eq_refl).
  - apply (exec_tools_ids env (resp_content r) (h ++ [ev1])).
    now rewrite Hexec.
Qed.

Lemma tool_turn_follow_up_witness :
  agent_turn (Scenario.listing " The files are a.txt and b.txt. " "n")
    Scenario.tools "list files" []
  = ([EvModel [user_text "list files"] Scenario.tools;
      EvTool "list_dir" "{}";
      EvModel
        [user_text "list files";
         {| role := "assistant";
            content := ContentBlocks [ToolUseBlock "toolu_1" "list_dir" "{}"] |};
         {| role := "user";
            content :=
              ContentResults [mkToolResult "toolu_1" "a.txt, b.txt"] |}]
        Scenario.tools],
     Returned "The files are a.txt and b.txt.").
Proof.
  exact (proj1 (tool_turn_follow_up
                  (Scenario.listing " The files are a.txt and b.txt. " "n")
                  Scenario.tools "list files" []
                  [EvTool "list_dir" "{}"] Scenario.list_dir_request
                  [mkToolResult "toolu_1" "a.txt, b.txt"]
                  eq_refl eq_refl eq_refl)).
Defined.

(** X6. The [isError] flag of a tool result is never read: replacing it in
    every result that the tool session returns leaves the whole run, trace
    and exit, as it was. *)
Theorem is_error_never_read (flag : bool) (env : Env) (update : bool) :
  run_evaluation (with_is_error flag env) update = run_evaluation env update.
Proof.
  unfold run_evaluation. cbn [server_script_exists evaluation_file api_key_set
                                with_is_error].
  destruct (negb (server_script_exists env)); [reflexivity |].
  destruct (evaluation_file env) as [f |]; [| reflexivity].
  destruct (negb (api_key_set env)); [reflexivity |].
  destruct (load_evaluation_file f) as [pairs | e]; [| reflexivity].
  assert (Htry : try_block (with_is_error flag env) update pairs []
                 = try_block env update pairs []).
  { unfold try_block. cbn [session_initialize session_list_tools with_is_error].
    destruct (session_initialize env); [| reflexivity].
    destruct (session_list_tools env) as [listed | e]; [| reflexivity].
    now rewrite eval_loop_flag. }
  rewrite Htry. reflexivity.
Qed.

(** ** More on the loop *)

Section MoreLoopFacts.

Variable env : Env.
Variable update : bool.
Variable tools : list ToolDescriptor.

(** The state after an iteration, with the conditions under which the
    update is applied. *)
Lemma eval_pair_step (i : nat) (pair : QAPair) (st st' : LoopState)
    (h : list event) :
  (eval_pair env update tools i pair st h).2 = Returned st' ->
  exists final_answer,
    st' = append_result pair final_answer
            (passed (answer pair) final_answer) st
    \/ (update = true
        /\ passed (answer pair) final_answer = false
        /\ PyStr.strip final_answer = final_answer
        /\ st' = accept_update i pair final_answer st).
Proof.
  unfold eval_pair, bind.
  pose proof (agent_turn_answer env tools (question pair) h) as Hans.
  destruct (agent_turn env tools (question pair) h) as [evs [final | e]];
    [| discriminate].
  destruct (Hans final eq_refl) as [blocks Hblocks].
  assert (Hstrip : PyStr.strip final = final)
    by (rewrite Hblocks; apply strip_idem).
  clear Hans Hblocks.
  unfold judge_and_record.
  destruct (passed (answer pair) final) eqn:Hp; simpl.
  - intros H; inversion H. exists final. left. now rewrite Hp.
  - destruct update; simpl.
    + unfold bind, ask.
      destruct (console_input env (h ++ evs) (update_prompt final))
        as [typed | e]; [| discriminate].
      destruct (accepts typed); simpl; intros H; inversion H;
        exists final; rewrite ?Hp; auto.
    + intros H; inversion H. exists final. left. now rewrite Hp.
Qed.

(** Induction over the loop: a property of index and state that both
    ways of ending an iteration carry to the next index holds where the
    loop stops, and the loop stops short of the last index when an
    exception ends it. *)
Lemma eval_loop_invariant (I : nat -> LoopState -> Prop) :
  (forall i st p final,
     I i st -> qa_pairs st !! i = Some p ->
     I (S i) (append_result p final (passed (answer p) final) st)) ->
  (forall i st p final,
     I i st -> qa_pairs st !! i = Some p ->
     update = true -> passed (answer p) final = false ->
     PyStr.strip final = final ->
     I (S i) (accept_update i p final st)) ->
  forall n i st h,
    I i st ->
    exists k,
      i <= k <= i + n
      /\ I k (eval_loop env update tools n i st h).2.1
      /\ ((eval_loop env update tools n i st h).2.2 <> None -> k < i + n).
Proof.
  intros Hkeep Haccept. induction n as [|n IH]; intros i st h HI.
  - exists i. simpl. repeat split; try lia; auto; congruence.
  - simpl. destruct (qa_pairs st !! i) as [p |] eqn:Hi.
    + pose proof (fun st' => eval_pair_step i p st st' h) as Hstep.
      destruct (eval_pair env update tools i p st h) as [evs [st' | e]].
      * assert (HI' : I (S i) st').
        { destruct (Hstep st' eq_refl)
            as [final [-> | (Hu & Hp & Hs & ->)]]; eauto. }
        destruct (IH (S i) st' (h ++ evs) HI') as (k & Hk & HIk & Hab).
        destruct (eval_loop env update tools n (S i) st' (h ++ evs))
          as [evs' r].
        exists k. simpl in *. split; [lia |]. split; [exact HIk |].
        intros Hne. specialize (Hab Hne). lia.
      * exists i. simpl. repeat split; try lia; auto.
    + exists i. simpl. repeat split; try lia; auto; congruence.
Qed.

(** Counting events over the loop. *)
Lemma count_events_app (c : event -> bool) (l1 l2 : list event) :
  count_events c (l1 ++ l2) = count_events c l1 + count_events c l2.
Proof. unfold count_events. now rewrite List.filter_app, length_app. Qed.

Lemma eval_loop_count (c : event -> bool) (b : nat) :
  (forall i p st h,
     count_events c (eval_pair env update tools i p st h).1 <= b) ->
  forall n i st h,
    count_events c (eval_loop env update tools n i st h).1 <= n * b.
Proof.
  intros Hpair. induction n as [|n IH]; intros i st h;
    [unfold count_events; simpl; lia |].
  simpl. destruct (qa_pairs st !! i) as [p |];
    [| unfold count_events; simpl; lia].
  specialize (Hpair i p st h).
  destruct (eval_pair env update tools i p st h) as [evs [st' | e]];
    simpl in *; [| lia].
  specialize (IH (S i) st' (h ++ evs)).
  destruct (eval_loop env update tools n (S i) st' (h ++ evs)) as [evs' r].
  simpl in *. rewrite count_events_app. lia.
Qed.

Lemma eval_loop_forall (Q : event -> Prop) :
  (forall i p st h, Forall Q (eval_pair env update tools i p st h).1) ->
  forall n i st h, Forall Q (eval_loop env update tools n i st h).1.
Proof.
  intros Hpair. induction n as [|n IH]; intros i st h; [constructor |].
  simpl. destruct (qa_pairs st !! i) as [p |]; [| constructor].
  specialize (Hpair i p st h).
  destruct (eval_pair env update tools i p st h) as [evs [st' | e]];
    simpl in *; [| exact Hpair].
  specialize (IH (S i) st' (h ++ evs)).
  destruct (eval_loop env update tools n (S i) st' (h ++ evs)) as [evs' r].
  simpl in *. apply Forall_app. auto.
Qed.

Lemma count_tool_events (c : event -> bool) (calls : list (string * string)) :
  (forall name input, c (EvTool name input) = false) ->
  count_events c (map tool_event calls) = 0.
Proof.
  intros Hc. induction calls as [|[name input] calls IH]; [reflexivity |].
  unfold count_events in *. simpl. unfold tool_event at 1. simpl.
  now rewrite Hc.
Qed.

(** The events of a turn: one or two model-service calls that declare
    [tools], and tool calls between them. *)
Lemma agent_turn_trace (question : string) (h : list event) :
  exists calls second,
    (agent_turn env tools question h).1
    = EvModel [user_text question] tools :: map tool_event calls ++ second
    /\ (second = [] \/ exists messages, second = [EvModel messages tools]).
Proof.
  pose proof (agent_turn_shape env tools question h) as Hshape.
  simpl in Hshape.
  destruct (messages_create env h [user_text question] tools) as [r | e].
  - destruct (String.eqb (stop_reason r) "tool_use").
    + destruct Hshape
        as (calls & _ & [(e & _ & Ht) | (trs & ms & out & _ & _ & Ht)]);
        rewrite Ht; simpl.
      * exists calls, []. rewrite app_nil_r. auto.
      * exists calls, [EvModel ms tools]. eauto.
    + rewrite Hshape. exists [], []. auto.
  - rewrite Hshape. exists [], []. auto.
Qed.

Lemma agent_turn_model_count (question : string) (h : list event) :
  count_events is_model_call (agent_turn env tools question h).1 <= 2.
Proof.
  destruct (agent_turn_trace question h) as (calls & second & -> & Hsec).
  change (EvModel [user_text question] tools :: map tool_event calls ++ second)
    with ([EvModel [user_text question] tools]
          ++ map tool_event calls ++ second).
  rewrite !count_events_app, count_tool_events by reflexivity.
  destruct Hsec as [-> | [ms ->]]; unfold count_events; simpl; lia.
Qed.

Lemma agent_turn_no_prompt (question : string) (h : list event) :
  count_events is_prompt (agent_turn env tools question h).1 = 0.
Proof.
  destruct (agent_turn_trace question h) as (calls & second & -> & Hsec).
  change (EvModel [user_text question] tools :: map tool_event calls ++ second)
    with ([EvModel [user_text question] tools]
          ++ map tool_event calls ++ second).
  rewrite !count_events_app, count_tool_events by reflexivity.
  destruct Hsec as [-> | [ms ->]]; reflexivity.
Qed.

Lemma agent_turn_declares (question : string) (h : list event) :
  Forall (declares tools) (agent_turn env tools question h).1.
Proof.
  destruct (agent_turn_trace question h) as (calls & second & -> & Hsec).
  constructor; [reflexivity |]. apply Forall_app. split.
  - clear. induction calls as [|c calls IH]; constructor; [exact I | exact IH].
  - destruct Hsec as [-> | [ms ->]]; repeat constructor.
Qed.

(** The events of the Judge step: at most the prompt, and no prompt
    outside update mode or when the Judge passes. *)
Lemma judge_and_record_trace (i : nat) (pair : QAPair)
    (final_answer : string) (st : LoopState) (h : list event) :
  (judge_and_record env update i pair final_answer st h).1
  = if negb (passed (answer pair) final_answer) && update
    then [EvInput (update_prompt final_answer)]
    else [].
Proof.
  unfold judge_and_record.
  destruct (negb (passed (answer pair) final_answer) && update);
    [| reflexivity].
  unfold bind, ask.
  destruct (console_input env h (update_prompt final_answer)) as [typed | e];
    [| reflexivity].
  destruct (accepts typed); reflexivity.
Qed.

Lemma eval_pair_model_count (i : nat) (pair : QAPair) (st : LoopState)
    (h : list event) :
  count_events is_model_call (eval_pair env update tools i pair st h).1 <= 2.
Proof.
  unfold eval_pair, bind.
  pose proof (agent_turn_model_count (question pair) h) as Hturn.
  destruct (agent_turn env tools (question pair) h) as [evs [final | e]];
    simpl in Hturn; [| exact Hturn].
  pose proof (judge_and_record_trace i pair final st (h ++ evs)) as Hjudge.
  destruct (judge_and_record env update i pair final st (h ++ evs))
    as [evs' out]; simpl in *. subst evs'.
  rewrite count_events_app.
  destruct (negb (passed (answer pair) final) && update);
    unfold count_events at 2; simpl; lia.
Qed.

Lemma eval_pair_prompt_count (i : nat) (pair : QAPair) (st : LoopState)
    (h : list event) :
  count_events is_prompt (eval_pair env update tools i pair st h).1
  <= if update then 1 else 0.
Proof.
  unfold eval_pair, bind.
  pose proof (agent_turn_no_prompt (question pair) h) as Hturn.
  destruct (agent_turn env tools (question pair) h) as [evs [final | e]];
    simpl in Hturn; [| simpl; lia].
  pose proof (judge_and_record_trace i pair final st (h ++ evs)) as Hjudge.
  destruct (judge_and_record env update i pair final st (h ++ evs))
    as [evs' out]; simpl in *. subst evs'.
  rewrite count_events_app, Hturn.
  destruct (passed (answer pair) final), update; unfold count_events; simpl;
    lia.
Qed.

Lemma eval_pair_declares (i : nat) (pair : QAPair) (st : LoopState)
    (h : list event) :
  Forall (declares tools) (eval_pair env update tools i pair st h).1.
Proof.
  unfold eval_pair, bind.
  pose proof (agent_turn_declares (question pair) h) as Hturn.
  destruct (agent_turn env tools (question pair) h) as [evs [final | e]];
    simpl in Hturn; [| exact Hturn].
  pose proof (judge_and_record_trace i pair final st (h ++ evs)) as Hjudge.
  destruct (judge_and_record env update i pair final st (h ++ evs))
    as [evs' out]; simpl in *. subst evs'.
  apply Forall_app. split; [exact Hturn |].
  destruct (negb (passed (answer pair) final) && update); repeat constructor.
Qed.

End MoreLoopFacts.

(** ** More on the run *)

Section MoreRunFacts.

Variable env : Env.
Variable update : bool.

Lemma count_loop_events (c : event -> bool) (evs : list event) :
  (forall e, is_loop_event e = true -> c e = false) ->
  forallb is_loop_event evs = true ->
  count_events c evs = 0.
Proof.
  intros Hc. induction evs as [|e evs IH]; [reflexivity |].
  simpl. intros H. apply andb_true_iff in H as [He Hevs].
  unfold count_events in *. simpl. rewrite (Hc e He). auto.
Qed.

(** Induction over the [try] block. *)
Lemma try_block_invariant (I : nat -> LoopState -> Prop)
    (pairs : list QAPair) (h : list event) :
  (forall i st p final,
     I i st -> qa_pairs st !! i = Some p ->
     I (S i) (append_result p final (passed (answer p) final) st)) ->
  (forall i st p final,
     I i st -> qa_pairs st !! i = Some p ->
     update = true -> passed (answer p) final = false ->
     PyStr.strip final = final ->
     I (S i) (accept_update i p final st)) ->
  I 0 {| qa_pairs := pairs; results := []; updates_made := false |} ->
  exists k,
    k <= length pairs
    /\ I k (try_block env update pairs h).2.1
    /\ ((try_block env update pairs h).2.2 <> None -> pairs <> [] ->
        k < length pairs).
Proof.
  intros Hkeep Haccept H0. unfold try_block.
  assert (Hpos : pairs <> [] -> 0 < length pairs).
  { destruct pairs; [congruence | simpl; lia]. }
  destruct (session_initialize env).
  - destruct (session_list_tools env) as [listed | e].
    + match goal with
      | |- context [eval_loop ?a ?b ?c ?d ?e ?f ?g] =>
          destruct (eval_loop_invariant a b c I Hkeep Haccept d e f g H0)
            as (k & Hk & HI & Hab);
          destruct (eval_loop a b c d e f g) as [evs r]
      end.
      exists k. simpl in *. split; [lia |]. split; [exact HI |]. auto.
    + exists 0. simpl. split; [lia |]. auto.
  - exists 0. simpl. split; [lia |]. auto.
Qed.

(** The events of the [try] block: the session set-up, then events of the
    loop. *)
Lemma try_block_trace (pairs : list QAPair) (h : list event) :
  exists body,
    (try_block env update pairs h).1 = EvInitialize :: body
    /\ count_events is_initialize body = 0
    /\ count_events is_list_tools body <= 1
    /\ count_events is_summary body = 0
    /\ count_events is_save_call body = 0
    /\ count_events is_model_call body <= length pairs * 2
    /\ count_events is_prompt body
       <= length pairs * (if update then 1 else 0).
Proof.
  unfold try_block.
  destruct (session_initialize env).
  - destruct (session_list_tools env) as [listed | e].
    + match goal with
      | |- context [eval_loop ?a ?b ?c ?d ?e ?f ?g] =>
          pose proof (eval_loop_events a b c d e f g) as Hloop;
          pose proof (eval_loop_count a b c is_model_call 2
                        (eval_pair_model_count a b c) d e f g) as Hmodel;
          pose proof (eval_loop_count a b c is_prompt
                        (if update then 1 else 0)
                        (eval_pair_prompt_count a b c) d e f g) as Hprompt;
          destruct (eval_loop a b c d e f g) as [evs r]
      end.
      simpl in *. exists (EvListTools :: evs).
      split; [reflexivity |].
      change (EvListTools :: evs) with ([EvListTools] ++ evs).
      rewrite !count_events_app.
      rewrite (count_loop_events is_initialize evs),
        (count_loop_events is_list_tools evs),
        (count_loop_events is_summary evs),
        (count_loop_events is_save_call evs)
        by (assumption || (intros []; simpl; congruence)).
      unfold count_events in *; simpl. repeat split; lia.
    + exists [EvListTools]. unfold count_events; simpl.
      repeat split; lia.
  - exists []. unfold count_events; simpl. repeat split; lia.
Qed.

End MoreRunFacts.

Section DatasetFacts.

Lemma lookup_map_question (l : list QAPair) (i : nat) (p : QAPair) :
  l !! i = Some p -> map question l !! i = Some (question p).
Proof.
  revert i. induction l as [|q l IH]; intros [|i]; simpl; try discriminate.
  - intros H; inversion H. reflexivity.
  - apply IH.
Qed.

Lemma insert_map_question (l : list QAPair) (i : nat) (p : QAPair)
    (v : string) :
  l !! i = Some p ->
  map question (<[i := set_answer p v]> l) = map question l.
Proof.
  revert i. induction l as [|q l IH]; intros [|i]; simpl; try discriminate.
  - intros H; inversion H. reflexivity.
  - intros H. f_equal. now apply IH.
Qed.

Lemma passed_refl (s : string) : passed s s = true.
Proof. unfold passed. apply contains_refl. Qed.

Lemma set_answer_changes (p : QAPair) (v : string) :
  passed (answer p) v = false -> set_answer p v <> p.
Proof.
  intros Hfail Heq. destruct p as [q a]. unfold set_answer in Heq.
  simpl in *. inversion Heq; subst. rewrite passed_refl in Hfail.
  discriminate.
Qed.

End DatasetFacts.

(** X7. Outside update mode a run never prompts the operator, never
    changes the dataset in memory and never writes it back. *)
Theorem non_update_run_is_read_only
    (env : Env) (tr : list event) (st : LoopState)
    (aborted : option string) :
  run_evaluation env false = (tr, Completed st aborted) ->
  count_events is_prompt tr = 0
  /\ updates_made st = false
  /\ save_events tr = []
  /\ forall f, evaluation_file env = Some f ->
               load_evaluation_file f = Returned (qa_pairs st).
Proof.
  intros Hrun.
  destruct (run_evaluation_completed env false tr st aborted Hrun)
    as (f & pairs & Hfile & Hload & Htry & Htr).
  destruct (try_block_invariant env false
              (fun _ s => updates_made s = false) pairs [])
    as (k & _ & Hupd & _); auto; try discriminate.
  rewrite Htry in Hupd. simpl in Hupd.
  destruct (try_block_trace env false pairs [])
    as (body & Hbody & _ & _ & _ & _ & _ & Hprompt).
  pose proof (try_block_no_save env false pairs []) as Hnosave.
  pose proof (try_block_dataset env false pairs []) as Hdata.
  rewrite Htry in Hdata. simpl in Hdata.
  assert (Hafter :
    after_try env st aborted (try_block env false pairs []).1
    = match aborted with Some e => [EvError e] | None => [] end
      ++ [EvSummary (length (results st)) (count_passed (results st))]).
  { unfold after_try. now rewrite Hupd. }
  rewrite Htr, Hafter. split; [| split; [exact Hupd | split]].
  - rewrite count_events_app, Hbody.
    change (EvInitialize :: body) with ([EvInitialize] ++ body).
    rewrite count_events_app.
    assert (count_events is_prompt body = 0) by lia.
    destruct aborted; unfold count_events in *; simpl; lia.
  - rewrite save_events_app, Hnosave. destruct aborted; reflexivity.
  - intros f' Hf'. rewrite Hfile in Hf'. inversion Hf'; subst f'.
    rewrite Hload. f_equal. symmetry. now apply Hdata.
Qed.

Lemma non_update_run_is_read_only_witness :
  count_events is_prompt
    (run_evaluation (Scenario.listing "Only b.txt exists." "y") false).1
  = 0.
Proof.
  refine (proj1 (non_update_run_is_read_only
                   (Scenario.listing "Only b.txt exists." "y") _
                   (mkState [mkPair "list files" "a.txt"]
                      [mkResult "list files" "a.txt" "Only b.txt exists."
                         false]
                      false)
                   None _)).
  reflexivity.
Defined.

(** X8. A run opens the session once, lists the tools at most once, and
    issues at most two model-service calls and at most one prompt per
    pair of the dataset. *)
Theorem run_call_bounds
    (env : Env) (update : bool) (tr : list event) (st : LoopState)
    (aborted : option string) :
  run_evaluation env update = (tr, Completed st aborted) ->
  count_events is_initialize tr = 1
  /\ count_events is_list_tools tr <= 1
  /\ count_events is_model_call tr <= 2 * length (qa_pairs st)
  /\ count_events is_prompt tr <= length (qa_pairs st).
Proof.
  intros Hrun.
  destruct (run_evaluation_completed env update tr st aborted Hrun)
    as (f & pairs & Hfile & Hload & Htry & Htr).
  destruct (try_block_invariant env update
              (fun _ s => length (qa_pairs s) = length pairs) pairs [])
    as (k & _ & Hlen & _); auto.
  { intros i s p final Hs Hi _ _ _. simpl. now rewrite length_insert. }
  rewrite Htry in Hlen. simpl in Hlen.
  destruct (try_block_trace env update pairs [])
    as (body & Hbody & Hinit & Hlist & _ & _ & Hmodel & Hprompt).
  rewrite Htr, Hbody, Hlen.
  change (EvInitialize :: body) with ([EvInitialize] ++ body).
  rewrite !count_events_app.
  assert (Hafter : forall c,
    c = is_initialize \/ c = is_list_tools \/ c = is_model_call
    \/ c = is_prompt ->
    count_events c (after_try env st aborted ([EvInitialize] ++ body)) = 0).
  { intros c Hc. unfold after_try, save_evaluation_file.
    destruct aborted, (updates_made st);
      try destruct (file_write env _ _);
      destruct Hc as [-> | [-> | [-> | ->]]]; reflexivity. }
  rewrite !Hafter by auto.
  unfold count_events in *. simpl.
  destruct update; repeat split; lia.
Qed.

Lemma run_call_bounds_witness :
  count_events is_model_call
    (run_evaluation (Scenario.listing "Only b.txt exists." "y") true).1
  <= 2.
Proof.
  refine (proj1 (proj2 (proj2 (run_call_bounds
                   (Scenario.listing "Only b.txt exists." "y") true _
                   (mkState [mkPair "list files" "Only b.txt exists."]
                      [mkResult "list files" "Only b.txt exists."
                         "Only b.txt exists." true]
                      true)
                   None _)))).
  reflexivity.
Defined.

(** X9. The results follow the dataset: the questions of the dataset in
    memory are those that were loaded, and the recorded results are, in
    order, those of the first questions of the dataset, all of them when
    no exception ended the run and fewer than all when one did. *)
Theorem results_follow_dataset
    (env : Env) (update : bool) (tr : list event) (st : LoopState)
    (aborted : option string) (f : FileContents) (pairs : list QAPair) :
  run_evaluation env update = (tr, Completed st aborted) ->
  evaluation_file env = Some f ->
  load_evaluation_file f = Returned pairs ->
  map question (qa_pairs st) = map question pairs
  /\ map r_question (results st)
     = take (length (results st)) (map question pairs)
  /\ length (results st) <= length pairs
  /\ (aborted = None -> length (results st) = length pairs)
  /\ (aborted <> None -> pairs <> [] -> length (results st) < length pairs).
Proof.
  intros Hrun Hfile Hload.
  destruct (run_evaluation_completed env update tr st aborted Hrun)
    as (f' & pairs' & Hfile' & Hload' & Htry & _).
  assert (f' = f) by congruence. subst f'.
  assert (pairs' = pairs) by congruence. subst pairs'.
  destruct (try_block_invariant env update
              (fun k s =>
                 map question (qa_pairs s) = map question pairs
                 /\ length (results s) = k
                 /\ map r_question (results s)
                    = take k (map question pairs))
              pairs [])
    as (k & Hk & (Hq & Hlen & Hres) & Hab).
  - intros i s p final (Hq & Hlen & Hres) Hi. simpl.
    split; [exact Hq |]. split; [rewrite length_app; simpl; lia |].
    rewrite map_app, Hres. simpl. symmetry. apply take_S_r.
    rewrite <- Hq. now apply lookup_map_question.
  - intros i s p final (Hq & Hlen & Hres) Hi _ _ _. simpl.
    split; [now rewrite insert_map_question |].
    split; [rewrite length_app; simpl; lia |].
    rewrite map_app, Hres. simpl. symmetry. apply take_S_r.
    rewrite <- Hq. now apply lookup_map_question.
  - simpl. auto.
  - pose proof (try_block_all_processed env update pairs []) as Hall.
    rewrite Htry in Hq, Hlen, Hres, Hab, Hall. simpl in *.
    subst k. repeat split; auto.
Qed.

Lemma results_follow_dataset_witness :
  let st :=
    mkState [mkPair "2+2?" "five"; mkPair "3+3?" "6"]
      [mkResult "2+2?" "five" "five" true] true in
  map r_question (results st) = take 1 ["2+2?"; "3+3?"]
  /\ length (results st) < 2.
Proof.
  destruct (results_follow_dataset Scenario.abort_after_update true
              (run_evaluation Scenario.abort_after_update true).1
              (mkState [mkPair "2+2?" "five"; mkPair "3+3?" "6"]
                 [mkResult "2+2?" "five" "five" true] true)
              (Some "overloaded")
              (saved_file [mkPair "2+2?" "4"; mkPair "3+3?" "6"])
              [mkPair "2+2?" "4"; mkPair "3+3?" "6"]
              eq_refl eq_refl eq_refl)
    as (_ & Hres & _ & _ & Hlt).
  split; [exact Hres |]. apply Hlt; discriminate.
Defined.

(** X10. [updates_made] is true at the end of a run exactly when the
    dataset in memory differs from the dataset that was loaded. *)
Theorem updates_made_iff_changed
    (env : Env) (update : bool) (tr : list event) (st : LoopState)
    (aborted : option string) (f : FileContents) (pairs : list QAPair) :
  run_evaluation env update = (tr, Completed st aborted) ->
  evaluation_file env = Some f ->
  load_evaluation_file f = Returned pairs ->
  updates_made st = true <-> qa_pairs st <> pairs.
Proof.
  intros Hrun Hfile Hload.
  destruct (run_evaluation_completed env update tr st aborted Hrun)
    as (f' & pairs' & Hfile' & Hload' & Htry & _).
  assert (f' = f) by congruence. subst f'.
  assert (pairs' = pairs) by congruence. subst pairs'.
  destruct (try_block_invariant env update
              (fun k s =>
                 (forall j, k <= j -> qa_pairs s !! j = pairs !! j)
                 /\ (updates_made s = false -> qa_pairs s = pairs)
                 /\ (updates_made s = true ->
                     exists j, j < k /\ qa_pairs s !! j <> pairs !! j))
              pairs [])
    as (k & _ & (_ & Hsame & Hdiff) & _).
  - intros i s p final (Hrest & Hsame & Hdiff) Hi. simpl.
    split; [intros j Hj; apply Hrest; lia |]. split; [exact Hsame |].
    intros Hu. destruct (Hdiff Hu) as (j & Hj & Hne). exists j.
    split; [lia | exact Hne].
  - intros i s p final (Hrest & Hsame & Hdiff) Hi _ Hfail _. simpl.
    split; [| split; [discriminate |]].
    + intros j Hj. rewrite list_lookup_insert_ne by lia. apply Hrest. lia.
    + intros _. exists i. split; [lia |].
      rewrite list_lookup_insert_eq by (now apply lookup_lt_Some in Hi).
      rewrite <- (Hrest i) by lia. rewrite Hi.
      intros Heq. inversion Heq as [Hp].
      now apply (set_answer_changes p final Hfail).
  - simpl. split; [reflexivity |]. split; [reflexivity | discriminate].
  - rewrite Htry in Hsame, Hdiff. simpl in *. split.
    + intros Hu Heq. destruct (Hdiff Hu) as (j & _ & Hne).
      apply Hne. now rewrite Heq.
    + intros Hne. destruct (updates_made st); [reflexivity |].
      exfalso. apply Hne. now apply Hsame.
Qed.

Lemma updates_made_iff_changed_witness :
  [mkPair "2+2?" "five"; mkPair "3+3?" "6"]
  <> [mkPair "2+2?" "4"; mkPair "3+3?" "6"].
Proof.
  apply (updates_made_iff_changed Scenario.abort_after_update true
           (run_evaluation Scenario.abort_after_update true).1
           (mkState [mkPair "2+2?" "five"; mkPair "3+3?" "6"]
              [mkResult "2+2?" "five" "five" true] true)
           (Some "overloaded")
           (saved_file [mkPair "2+2?" "4"; mkPair "3+3?" "6"])
           [mkPair "2+2?" "4"; mkPair "3+3?" "6"]
           eq_refl eq_refl eq_refl).
  reflexivity.
Defined.

(** X11. Every recorded result agrees with the Judge applied to the
    expected and actual answers that it records, also after an accepted
    update, where the expected answer recorded is the new one. *)
Theorem results_agree_with_judge
    (env : Env) (update : bool) (tr : list event) (st : LoopState)
    (aborted : option string) :
  run_evaluation env update = (tr, Completed st aborted) ->
  Forall (fun r => r_passed r = passed (r_expected r) (r_actual r))
    (results st).
Proof.
  intros Hrun.
  destruct (run_evaluation_completed env update tr st aborted Hrun)
    as (f & pairs & _ & _ & Htry & _).
  destruct (try_block_invariant env update
              (fun _ s =>
                 Forall (fun r => r_passed r = passed (r_expected r) (r_actual r))
                   (results s))
              pairs [])
    as (k & _ & Hres & _).
  - intros i s p final Hs _. simpl. apply Forall_app. split; [exact Hs |].
    repeat constructor.
  - intros i s p final Hs _ _ _ _. simpl. apply Forall_app.
    split; [exact Hs |]. repeat constructor. simpl.
    symmetry. apply passed_refl.
  - constructor.
  - now rewrite Htry in Hres.
Qed.

Lemma results_agree_with_judge_witness :
  Forall (fun r => r_passed r = passed (r_expected r) (r_actual r))
    [mkResult "2+2?" "five" "five" true].
Proof.
  exact (results_agree_with_judge Scenario.abort_after_update true
           (run_evaluation Scenario.abort_after_update true).1
           (mkState [mkPair "2+2?" "five"; mkPair "3+3?" "6"]
              [mkResult "2+2?" "five" "five" true] true)
           (Some "overloaded") eq_refl).
Defined.

Lemma try_block_declares (env : Env) (update : bool) (pairs : list QAPair)
    (h : list event) (listed : list McpTool) :
  session_list_tools env = Returned listed ->
  Forall (declares (map declare listed)) (try_block env update pairs h).1.
Proof.
  intros Hlist. unfold try_block.
  destruct (session_initialize env); [| repeat constructor].
  rewrite Hlist.
  match goal with
  | |- context [eval_loop ?a ?b ?c ?d ?e ?f ?g] =>
      pose proof (eval_loop_forall a b c (declares c)
                    (eval_pair_declares a b c) d e f g) as Hloop;
      destruct (eval_loop a b c d e f g) as [evs r]
  end.
  simpl in *. repeat constructor. exact Hloop.
Qed.

Lemma count_passed_le (rs : list EvalResult) : count_passed rs <= length rs.
Proof. unfold count_passed. apply List.filter_length_le. Qed.

(** X12. Every run that reaches the session ends with exactly one
    summary, as its last event, whose passed count is at most its total;
    it calls [save_evaluation_file] once when [updates_made] is true and
    never otherwise, whether or not the write succeeds. *)
Theorem run_ends_with_one_summary
    (env : Env) (update : bool) (tr : list event) (st : LoopState)
    (aborted : option string) :
  run_evaluation env update = (tr, Completed st aborted) ->
  exists body,
    tr = body ++ [EvSummary (length (results st)) (count_passed (results st))]
    /\ count_events is_summary body = 0
    /\ count_passed (results st) <= length (results st)
    /\ count_events is_save_call tr = if updates_made st then 1 else 0.
Proof.
  intros Hrun.
  destruct (run_evaluation_completed env update tr st aborted Hrun)
    as (f & pairs & _ & _ & Htry & Htr).
  destruct (try_block_trace env update pairs [])
    as (body & Hbody & _ & _ & Hsum & Hsave & _ & _).
  set (pre := (try_block env update pairs []).1) in *.
  set (handler := match aborted with Some e => [EvError e] | None => [] end).
  set (saving := if updates_made st
                 then save_evaluation_file env (qa_pairs st) (pre ++ handler)
                 else []).
  assert (Hafter :
    after_try env st aborted pre
    = handler ++ saving
      ++ [EvSummary (length (results st)) (count_passed (results st))])
    by reflexivity.
  assert (Hpre : count_events is_summary pre = 0
                 /\ count_events is_save_call pre = 0).
  { rewrite Hbody. change (EvInitialize :: body) with ([EvInitialize] ++ body).
    rewrite !count_events_app, Hsum, Hsave. split; reflexivity. }
  assert (Hhandler : count_events is_summary handler = 0
                     /\ count_events is_save_call handler = 0).
  { subst handler. destruct aborted; split; reflexivity. }
  assert (Hsaving : count_events is_summary saving = 0
                    /\ count_events is_save_call saving
                       = if updates_made st then 1 else 0).
  { subst saving. unfold save_evaluation_file.
    destruct (updates_made st); [| split; reflexivity].
    destruct (file_write env _ _); split; reflexivity. }
  exists (pre ++ handler ++ saving).
  rewrite Htr, Hafter, !app_assoc.
  split; [reflexivity |].
  rewrite !count_events_app.
  destruct Hpre as [-> ->], Hhandler as [-> ->], Hsaving as [-> ->].
  split; [reflexivity |]. split; [apply count_passed_le |].
  unfold count_events. simpl. lia.
Qed.

Lemma run_ends_with_one_summary_witness :
  exists body,
    (run_evaluation (Scenario.listing "Only b.txt exists." "n") false).1
    = body ++ [EvSummary 1 0].
Proof.
  destruct (run_ends_with_one_summary
              (Scenario.listing "Only b.txt exists." "n") false
              (run_evaluation (Scenario.listing "Only b.txt exists." "n")
                 false).1
              (mkState [mkPair "list files" "a.txt"]
                 [mkResult "list files" "a.txt" "Only b.txt exists." false]
                 false)
              None eq_refl)
    as (body & Htr & _).
  exists body. exact Htr.
Defined.

(** X13. The tools that the session listed are declared, unchanged, in
    every model-service call of the run. *)
Theorem tools_declared_unchanged
    (env : Env) (update : bool) (tr : list event) (st : LoopState)
    (aborted : option string) (listed : list McpTool) :
  run_evaluation env update = (tr, Completed st aborted) ->
  session_list_tools env = Returned listed ->
  Forall (declares (map declare listed)) tr.
Proof.
  intros Hrun Hlist.
  destruct (run_evaluation_completed env update tr st aborted Hrun)
    as (f & pairs & _ & _ & Htry & Htr).
  rewrite Htr. apply Forall_app. split.
  - now apply try_block_declares.
  - unfold after_try, save_evaluation_file.
    destruct aborted, (updates_made st); try destruct (file_write env _ _);
      repeat constructor.
Qed.

Lemma tools_declared_unchanged_witness :
  Forall (declares Scenario.tools)
    (run_evaluation (Scenario.listing "Only b.txt exists." "n") false).1.
Proof.
  exact (tools_declared_unchanged
           (Scenario.listing "Only b.txt exists." "n") false
           (run_evaluation (Scenario.listing "Only b.txt exists." "n") false).1
           (mkState [mkPair "list files" "a.txt"]
              [mkResult "list files" "a.txt" "Only b.txt exists." false]
              false)
           None [mkMcpTool "list_dir" "List a directory" "{}"]
           eq_refl eq_refl).
Defined.

Ltac exit_case :=
  repeat split; intros;
  repeat match goal with
         | H : _ /\ _ |- _ => destruct H
         | H : exists _, _ |- _ => destruct H
         | H : Some _ = Some _ |- _ => inversion H; subst; clear H
         | H : ParseFailed _ = ParseFailed _ |- _ =>
             inversion H; subst; clear H
         end;
  try discriminate; try congruence; eauto 8.

(** X14. How a run ends is decided by the prerequisites in the order of
    the script: the server script, then the dataset file, then the API
    key, then the parse of the file; the session is reached exactly when
    all four succeed. *)
Theorem run_exit_by_prerequisites (env : Env) (update : bool) :
  let run := run_evaluation env update in
  (run.2 = ServerScriptMissing <-> server_script_exists env = false)
  /\ (run.2 = EvaluationFileMissing <->
      server_script_exists env = true /\ evaluation_file env = None)
  /\ (run.2 = ApiKeyMissing <->
      server_script_exists env = true
      /\ evaluation_file env <> None
      /\ api_key_set env = false)
  /\ (forall e,
        run.2 = ParseFailed e <->
        server_script_exists env = true
        /\ api_key_set env = true
        /\ exists f, evaluation_file env = Some f
                     /\ load_evaluation_file f = Raised e)
  /\ ((exists st aborted, run.2 = Completed st aborted) <->
      server_script_exists env = true
      /\ api_key_set env = true
      /\ exists f pairs, evaluation_file env = Some f
                         /\ load_evaluation_file f = Returned pairs).
Proof.
  unfold run_evaluation.
  destruct (server_script_exists env); simpl; [| exit_case].
  destruct (evaluation_file env) as [f |]; simpl; [| exit_case].
  destruct (api_key_set env); simpl; [| exit_case].
  destruct (load_evaluation_file f) as [pairs | e0] eqn:Hload;
    [destruct (try_block env update pairs []) as [evs [st ab]] |];
    simpl; exit_case.
Qed.

Lemma run_exit_by_prerequisites_witness :
  (run_evaluation
     (mkEnv true (Some NotXml) false (Returned tt) (Returned [])
        (fun _ _ _ => Raised "unreachable")
        (fun _ _ _ => Raised "unreachable")
        (fun _ _ => Raised "unreachable")
        (fun _ _ => Returned tt))
     true).2
  = ApiKeyMissing.
Proof.
  apply (proj1 (proj2 (proj2 (run_exit_by_prerequisites
           (mkEnv true (Some NotXml) false (Returned tt) (Returned [])
              (fun _ _ _ => Raised "unreachable")
              (fun _ _ _ => Raised "unreachable")
              (fun _ _ => Raised "unreachable")
              (fun _ _ => Returned tt))
           true)))).
  repeat split; discriminate.
Defined.

(** ** More on the dataset store *)

Section MoreStoreFacts.

(** A text that XML allows and that holds no control character is read
    back as written, an empty one as no text. *)
Lemma read_text_field (s : string) :
  PyStr.all_chars xml_char_ok s = true ->
  PyStr.no_control s = true ->
  read_text (Some s) = Some (field_text s).
Proof.
  intros Hxml Hctl. unfold read_text, field_text.
  destruct (PyStr.is_empty s); [reflexivity |].
  now rewrite Hxml, (no_control_newlines s Hctl).
Qed.

Lemma read_file_pair (p : QAPair) (k : nat) :
  k <= 1 ->
  xml_fields p ->
  PyStr.no_control (question p) = true ->
  PyStr.no_control (answer p) = true ->
  read_element (stored_pair p (indentation k))
  = Some (file_pair p (indentation k)).
Proof.
  intros Hk [Hxq Hxa] Hq Ha. unfold stored_pair, file_pair.
  cbn [read_element read_all].
  rewrite (read_text_field _ Hxq Hq), (read_text_field _ Hxa Ha).
  destruct k as [|[|k]]; [reflexivity | reflexivity | lia].
Qed.

Lemma read_file_pairs (l : list QAPair) :
  Forall (fun p => xml_fields p
                   /\ PyStr.no_control (question p) = true
                   /\ PyStr.no_control (answer p) = true) l ->
  read_all read_element (stored_pairs l) = Some (file_pairs l).
Proof.
  induction 1 as [|p rest (Hx & Hq & Ha) Hrest IH]; [reflexivity |].
  change (stored_pairs (p :: rest))
    with (stored_pair p (indentation match rest with [] => 0 | _ :: _ => 1 end)
          :: stored_pairs rest).
  cbn [read_all]. fold (read_all read_element (stored_pairs rest)).
  rewrite IH, read_file_pair; auto.
  destruct rest; lia.
Qed.

Lemma parse_file_pair (p : QAPair) (tl : string) :
  parse_pair (file_pair p tl)
  = if has_empty_field p
    then Raised "'NoneType' object has no attribute 'strip'"
    else Returned (stripped p).
Proof.
  unfold parse_pair, file_pair, has_empty_field, field_text, stripped. simpl.
  destruct (PyStr.is_empty (question p)), (PyStr.is_empty (answer p));
    reflexivity.
Qed.

Lemma parse_file_pairs (l : list QAPair) :
  parse_pairs (List.filter (fun c => String.eqb (elem_tag c) "qa_pair")
                 (file_pairs l))
  = if existsb has_empty_field l
    then Raised "'NoneType' object has no attribute 'strip'"
    else Returned (map stripped l).
Proof.
  induction l as [|p rest IH]; [reflexivity |].
  change (file_pairs (p :: rest))
    with (file_pair p (indentation match rest with [] => 0 | _ :: _ => 1 end)
          :: file_pairs rest).
  cbn [List.filter file_pair elem_tag]. simpl String.eqb. cbn iota.
  cbn [parse_pairs].
  fold (file_pair p (indentation match rest with [] => 0 | _ :: _ => 1 end)).
  rewrite parse_file_pair, IH. simpl.
  destruct (has_empty_field p); [reflexivity |].
  destruct (existsb has_empty_field rest); reflexivity.
Qed.

Lemma parse_pair_stripped (e : Element) (p : QAPair) :
  parse_pair e = Returned p -> stripped p = p.
Proof.
  unfold parse_pair.
  destruct (et_find "question" e) as [qe |]; [| discriminate].
  destruct (et_find "answer" e) as [ae |]; [| discriminate].
  destruct (elem_text qe) as [q |]; [| discriminate].
  destruct (elem_text ae) as [a |]; [| discriminate].
  intros H; inversion H. unfold stripped. simpl. now rewrite !strip_idem.
Qed.

Lemma parse_pairs_stripped (elems : list Element) (l : list QAPair) :
  parse_pairs elems = Returned l ->
  Forall (fun p => stripped p = p) l /\ length l = length elems.
Proof.
  revert l. induction elems as [|e elems IH]; intros l; simpl.
  - intros H; inversion H. split; [constructor | reflexivity].
  - destruct (parse_pair e) as [p | x] eqn:Hp; [| discriminate].
    destruct (parse_pairs elems) as [ps | x]; [| discriminate].
    intros H; inversion H; subst. destruct (IH ps eq_refl) as [Hall Hlen].
    split; [constructor; [now apply (parse_pair_stripped e) | exact Hall] |].
    simpl. now rewrite Hlen.
Qed.

Lemma map_stripped_id (l : list QAPair) :
  Forall (fun p => stripped p = p) l -> map stripped l = l.
Proof.
  induction 1 as [|p rest Hp Hrest IH]; [reflexivity |].
  simpl. now rewrite Hp, IH.
Qed.

(** Among the characters modelled, one that is no control character is
    one that XML allows. *)
Lemma no_control_xml_fields (l : list QAPair) :
  Forall (fun p => PyStr.no_control (question p) = true
                   /\ PyStr.no_control (answer p) = true) l ->
  Forall xml_fields l.
Proof.
  intros H. eapply Forall_impl; [exact H |].
  intros p [Hq Ha]. split; now apply no_control_xml_ok.
Qed.

(** The saved file for fields that XML allows and that hold no control
    character. *)
Lemma saved_file_layout (l : list QAPair) :
  Forall xml_fields l ->
  Forall (fun p => PyStr.no_control (question p) = true
                   /\ PyStr.no_control (answer p) = true) l ->
  saved_file l = Document (file_root l).
Proof.
  intros Hxml Hctl0.
  assert (Hctl : Forall (fun p => xml_fields p
                   /\ PyStr.no_control (question p) = true
                   /\ PyStr.no_control (answer p) = true) l).
  { clear -Hxml Hctl0. induction Hxml as [|p rest Hp Hrest IH];
      [constructor |].
    inversion Hctl0; subst. constructor; auto. }
  destruct l as [|p rest]; [reflexivity |].
  unfold saved_file, build_tree, indent.
  change (elem_children _) with (map qa_pair_element (p :: rest)).
  cbn [map]. cbn [indent_children].
  change (qa_pair_element p :: map qa_pair_element rest)
    with (map qa_pair_element (p :: rest)).
  rewrite indent_child_list_pairs.
  unfold written. cbn [read_element].
  fold (read_all read_element (stored_pairs (p :: rest))).
  rewrite (read_file_pairs _ Hctl). reflexivity.
Qed.

End MoreStoreFacts.

(** X15. The layout of the saved file, for fields without control
    characters that are made of characters XML allows: one [qa_pair]
    element per pair, in order, each holding the question and then the
    answer, indented by two spaces per level; an empty field is written as
    an element without text. *)
Theorem saved_file_is_indented_document (l : list QAPair) :
  Forall xml_fields l ->
  Forall (fun p => PyStr.no_control (question p) = true
                   /\ PyStr.no_control (answer p) = true) l ->
  saved_file l = Document (file_root l)
  /\ length (et_findall "qa_pair" (file_root l)) = length l.
Proof.
  intros Hxml Hctl. split; [now apply saved_file_layout |].
  unfold et_findall, file_root, elem_children. clear Hctl Hxml.
  induction l as [|p rest IH]; [reflexivity |].
  change (file_pairs (p :: rest))
    with (file_pair p (indentation match rest with [] => 0 | _ :: _ => 1 end)
          :: file_pairs rest).
  cbn [List.filter file_pair elem_tag]. simpl String.eqb. cbn iota.
  simpl length. now rewrite IH.
Qed.

Lemma saved_file_is_indented_document_witness :
  saved_file [mkPair "2+2?" EmptyString]
  = Document
      (Elem "evaluation" (Some (indentation 1)) None
         [Elem "qa_pair" (Some (indentation 2)) (Some (indentation 0))
            [Elem "question" (Some "2+2?") (Some (indentation 2)) [];
             Elem "answer" None (Some (indentation 1)) []]]).
Proof.
  refine (proj1 (saved_file_is_indented_document
                   [mkPair "2+2?" EmptyString] _ _)); repeat constructor.
Defined.

(** X16. Loading a file that was just saved, for fields without control
    characters that are made of characters XML allows: when no field is
    empty the pairs come back in order with every field stripped; when
    some field is empty the load fails on the element without text. *)
Theorem load_after_save (l : list QAPair) :
  Forall xml_fields l ->
  Forall (fun p => PyStr.no_control (question p) = true
                   /\ PyStr.no_control (answer p) = true) l ->
  load_evaluation_file (saved_file l)
  = if existsb has_empty_field l
    then Raised "'NoneType' object has no attribute 'strip'"
    else Returned (map stripped l).
Proof.
  intros Hxml Hctl. rewrite (saved_file_layout l Hxml Hctl).
  unfold load_evaluation_file, et_parse, et_findall, file_root, elem_children.
  apply parse_file_pairs.
Qed.

Lemma load_after_save_witness :
  load_evaluation_file (saved_file [mkPair " 2+2? " "4"; mkPair "3+3?" "6 "])
  = Returned [mkPair "2+2?" "4"; mkPair "3+3?" "6"]
  /\ load_evaluation_file (saved_file [mkPair "2+2?" "4"; mkPair "3+3?" EmptyString])
     = Raised "'NoneType' object has no attribute 'strip'".
Proof.
  split.
  - refine (load_after_save [mkPair " 2+2? " "4"; mkPair "3+3?" "6 "] _ _);
      repeat constructor.
  - refine (load_after_save [mkPair "2+2?" "4"; mkPair "3+3?" EmptyString]
              _ _);
      repeat constructor.
Defined.

(** X17. A load that succeeds returns one pair for every [qa_pair]
    element under the root, and no field of a loaded pair starts or ends
    with whitespace. *)
Theorem loaded_fields_are_stripped (f : FileContents) (l : list QAPair) :
  load_evaluation_file f = Returned l ->
  Forall (fun p => PyStr.strip (question p) = question p
                   /\ PyStr.strip (answer p) = answer p) l
  /\ exists root,
       f = Document root /\ length l = length (et_findall "qa_pair" root).
Proof.
  unfold load_evaluation_file, et_parse.
  destruct f as [| root]; [discriminate |].
  intros H. destruct (parse_pairs_stripped _ l H) as [Hall Hlen].
  split; [| eauto].
  eapply Forall_impl; [exact Hall |].
  intros [q a] Hp. unfold stripped in Hp. simpl in *.
  inversion Hp as [[Hq Ha]]. now rewrite Hq, Ha.
Qed.

Lemma loaded_fields_are_stripped_witness :
  Forall (fun p => PyStr.strip (question p) = question p
                   /\ PyStr.strip (answer p) = answer p)
    [mkPair "2+2?" "4"].
Proof.
  refine (proj1 (loaded_fields_are_stripped
                   (Document
                      (Elem "evaluation" None None
                         [Elem "note" (Some "ignored") None [];
                          Elem "qa_pair" None None
                            [Elem "question" (Some "  2+2? ") None [];
                             Elem "answer" (Some " 4") None []]]))
                   [mkPair "2+2?" "4"] _)).
  reflexivity.
Defined.

(** X18. A dataset that was loaded, has no empty field and no control
    character, is in normal form: saving it and loading the saved file
    returns it unchanged. *)
Theorem loaded_dataset_reloads (f : FileContents) (l : list QAPair) :
  load_evaluation_file f = Returned l ->
  Forall (fun p => PyStr.no_control (question p) = true
                   /\ PyStr.no_control (answer p) = true) l ->
  existsb has_empty_field l = false ->
  load_evaluation_file (saved_file l) = Returned l.
Proof.
  intros Hload Hctl Hne.
  rewrite (saved_file_layout l (no_control_xml_fields l Hctl) Hctl).
  unfold load_evaluation_file in *. unfold et_parse in *.
  destruct f as [| root]; [discriminate |].
  destruct (parse_pairs_stripped _ l Hload) as [Hall _].
  unfold et_findall, file_root, elem_children.
  now rewrite parse_file_pairs, Hne, (map_stripped_id l Hall).
Qed.

Lemma loaded_dataset_reloads_witness :
  load_evaluation_file (saved_file [mkPair "2+2?" "4"])
  = Returned [mkPair "2+2?" "4"].
Proof.
  refine (loaded_dataset_reloads
            (Document
               (Elem "evaluation" None None
                  [Elem "qa_pair" None None
                     [Elem "question" (Some "  2+2? ") None [];
                      Elem "answer" (Some " 4") None []]]))
            [mkPair "2+2?" "4"] _ _ _).
  - reflexivity.
  - repeat constructor.
  - reflexivity.
Defined.

(** X19. The dataset in memory at the end of a run has every field
    stripped, the accepted answers included; so, when it has no empty
    field, no control character and only characters that XML allows, the
    file that the write-back saves is loaded by a later run as exactly
    that dataset. *)
Theorem write_back_reloads
    (env : Env) (update : bool) (tr : list event) (st : LoopState)
    (aborted : option string) :
  run_evaluation env update = (tr, Completed st aborted) ->
  Forall (fun p => stripped p = p) (qa_pairs st)
  /\ (Forall xml_fields (qa_pairs st) ->
      Forall (fun p => PyStr.no_control (question p) = true
                       /\ PyStr.no_control (answer p) = true) (qa_pairs st) ->
      existsb has_empty_field (qa_pairs st) = false ->
      load_evaluation_file (saved_file (qa_pairs st))
      = Returned (qa_pairs st)).
Proof.
  intros Hrun.
  destruct (run_evaluation_completed env update tr st aborted Hrun)
    as (f & pairs & _ & Hload & Htry & _).
  assert (Hpairs : Forall (fun p => stripped p = p) pairs).
  { unfold load_evaluation_file in Hload.
    destruct (et_parse f) as [root | e]; [| discriminate].
    now destruct (parse_pairs_stripped _ pairs Hload). }
  assert (Hall : Forall (fun p => stripped p = p) (qa_pairs st)).
  { destruct (try_block_invariant env update
                (fun _ s => Forall (fun p => stripped p = p) (qa_pairs s))
                pairs [])
      as (k & _ & Hinv & _); auto.
    - intros i s p final Hs Hi _ _ Hstrip. simpl.
      apply Forall_insert; [exact Hs |].
      pose proof (Forall_lookup_1 _ _ _ _ Hs Hi) as Hp.
      destruct p as [q a]. unfold stripped, set_answer in *. simpl in *.
      injection Hp as Hq Ha. now rewrite Hq, Hstrip.
    - now rewrite Htry in Hinv. }
  split; [exact Hall |].
  intros Hxml Hctl Hne. rewrite (saved_file_layout _ Hxml Hctl).
  unfold load_evaluation_file, et_parse, et_findall, file_root, elem_children.
  now rewrite parse_file_pairs, Hne, (map_stripped_id _ Hall).
Qed.

Lemma write_back_reloads_witness :
  load_evaluation_file (saved_file [mkPair "2+2?" "five"; mkPair "3+3?" "6"])
  = Returned [mkPair "2+2?" "five"; mkPair "3+3?" "6"].
Proof.
  refine (proj2 (write_back_reloads Scenario.abort_after_update true
                   (run_evaluation Scenario.abort_after_update true).1
                   (mkState [mkPair "2+2?" "five"; mkPair "3+3?" "6"]
                      [mkResult "2+2?" "five" "five" true] true)
                   (Some "overloaded") eq_refl) _ _ _).
  - repeat constructor.
  - repeat constructor.
  - reflexivity.
Defined.

(** ** Failures around the loop *)

(** X20. When the session cannot be opened, or the tools cannot be
    listed, no question is attempted: the exception reaches the handler,
    no model-service call is made, nothing is recorded or written back,
    and the summary reports zero results. *)
Theorem session_failure_attempts_nothing
    (env : Env) (update : bool) (tr : list event) (st : LoopState)
    (aborted : option string) (e : string) :
  run_evaluation env update = (tr, Completed st aborted) ->
  session_initialize env = Raised e
  \/ ((exists u, session_initialize env = Returned u)
      /\ session_list_tools env = Raised e) ->
  aborted = Some e
  /\ results st = []
  /\ updates_made st = false
  /\ count_events is_model_call tr = 0
  /\ save_events tr = []
  /\ last tr = Some (EvSummary 0 0).
Proof.
  intros Hrun Hfail.
  destruct (run_evaluation_completed env update tr st aborted Hrun)
    as (f & pairs & _ & _ & Htry & Htr).
  unfold try_block in Htry, Htr.
  destruct Hfail as [Hinit | [[u Hinit] Hlist]]; rewrite Hinit in Htry, Htr.
  - simpl in *. inversion Htry; subst. repeat split; reflexivity.
  - rewrite Hlist in Htry, Htr. simpl in *. inversion Htry; subst.
    repeat split; reflexivity.
Qed.

Lemma session_failure_attempts_nothing_witness :
  last (run_evaluation
          (mkEnv true (Some (saved_file [mkPair "2+2?" "4"])) true
             (Returned tt) (Raised "connection closed")
             (fun _ _ _ => Raised "unreachable")
             (fun _ _ _ => Raised "unreachable")
             (fun _ _ => Raised "unreachable")
             (fun _ _ => Returned tt))
          true).1
  = Some (EvSummary 0 0).
Proof.
  refine (proj2 (proj2 (proj2 (proj2 (proj2
            (session_failure_attempts_nothing
               (mkEnv true (Some (saved_file [mkPair "2+2?" "4"])) true
                  (Returned tt) (Raised "connection closed")
                  (fun _ _ _ => Raised "unreachable")
                  (fun _ _ _ => Raised "unreachable")
                  (fun _ _ => Raised "unreachable")
                  (fun _ _ => Returned tt))
               true _
               (mkState [mkPair "2+2?" "4"] [] false)
               (Some "connection closed") "connection closed" _ _)))))).
  - reflexivity.
  - right. split; [exists tt |]; reflexivity.
Defined.

(** X21. A prompt that raises, as at the end of the input, ends the loop
    at that question: the answer that was produced is not recorded, the
    variables stay as they were before the question, and the exception is
    handed to the handler of the run. *)
Theorem failed_prompt_aborts_loop
    (env : Env) (tools : list ToolDescriptor) (n i : nat) (pair : QAPair)
    (st : LoopState) (h evs : list event) (final_answer e : string) :
  qa_pairs st !! i = Some pair ->
  agent_turn env tools (question pair) h = (evs, Returned final_answer) ->
  passed (answer pair) final_answer = false ->
  console_input env (h ++ evs) (update_prompt final_answer) = Raised e ->
  eval_loop env true tools (S n) i st h
  = (evs ++ [EvInput (update_prompt final_answer)], (st, Some e)).
Proof.
  intros Hi Hturn Hfail Hin.
  apply (eval_loop_raised env true tools n i pair st h _ e Hi).
  unfold eval_pair. rewrite (bind_returned _ _ _ _ _ Hturn).
  unfold judge_and_record. rewrite Hfail. simpl.
  unfold bind, ask. now rewrite Hin.
Qed.

Lemma failed_prompt_aborts_loop_witness :
  (eval_loop
     (Scenario.scripted (saved_file [mkPair "2+2?" "4"])
        (Scenario.text_model "five") Scenario.no_tool (Raised "EOF"))
     true Scenario.tools 1 0 (mkState [mkPair "2+2?" "4"] [] false) []).2
  = (mkState [mkPair "2+2?" "4"] [] false, Some "EOF").
Proof.
  rewrite (failed_prompt_aborts_loop
             (Scenario.scripted (saved_file [mkPair "2+2?" "4"])
                (Scenario.text_model "five") Scenario.no_tool (Raised "EOF"))
             Scenario.tools 0 0 (mkPair "2+2?" "4")
             (mkState [mkPair "2+2?" "4"] [] false) []
             [EvModel [user_text "2+2?"] Scenario.tools] "five" "EOF"
             eq_refl eq_refl eq_refl eq_refl).
  reflexivity.
Defined.

(** ** Text of responses and tool results *)

(** X22. The text of a response is the text of its text blocks joined
    without a separator, in order, whatever other blocks stand between
    them: a single text block gives its text, and two lists of blocks give
    the two texts one after the other.  The text of a tool result joins
    the items the same way, an item with text giving its text and any
    other item its rendering. *)
Theorem response_text_is_joined
    (blocks1 blocks2 : list Block) (items1 items2 : list ContentItem) :
  text_of (blocks1 ++ blocks2) = text_of blocks1 +:+ text_of blocks2
  /\ content_to_str (items1 ++ items2)
     = content_to_str items1 +:+ content_to_str items2
  /\ (forall t, text_of [TextBlock t] = t)
  /\ (forall t, content_to_str [TextItem t] = t)
  /\ (forall rendered, content_to_str [OtherItem rendered] = rendered)
  /\ (forall t1 t2 id name input,
        text_of [TextBlock t1; ToolUseBlock id name input; TextBlock t2]
        = t1 +:+ t2)
  /\ (forall id name input,
        text_of (blocks1 ++ ToolUseBlock id name input :: blocks2)
        = text_of (blocks1 ++ blocks2))
  /\ (forall ty,
        text_of (blocks1 ++ OtherBlock ty :: blocks2)
        = text_of (blocks1 ++ blocks2)).
Proof.
  assert (Happ : forall b1 b2,
            text_of (b1 ++ b2) = text_of b1 +:+ text_of b2).
  { induction b1 as [|b b1 IH]; intros b2; [reflexivity |].
    destruct b; simpl; rewrite ?IH, ?str_app_assoc; reflexivity. }
  split; [apply Happ |]. split.
  - induction items1 as [|it items1 IH]; [reflexivity |].
    destruct it; simpl; rewrite IH, str_app_assoc; reflexivity.
  - split; [intros t; simpl; apply str_app_nil_r |].
    split; [intros t; simpl; apply str_app_nil_r |].
    split; [intros t; simpl; apply str_app_nil_r |].
    split; [intros; simpl; now rewrite str_app_nil_r |].
    split; intros; rewrite !Happ; reflexivity.
Qed.
